(** * The DoS reconciliation engine of [application/event_processor/dos.py]

    A shallow embedding of the event processor's directory-of-services
    module: the [DoSService] record built from a database row, the
    field comparison [compare_values] / [add_to_change_request_if_not_equal]
    / [DoSService.get_changes], the derived property [DoSService.ods5] and
    the lookup [get_matching_dos_services], followed by the properties the
    specification states about them.

    Python objects are attribute dictionaries, Python dictionaries are
    finite maps keyed by strings, exceptions are values of [exn] carried
    by [result], and calls that reach the outside world (logger, secrets
    manager, database driver) are recorded in a trace. *)

From Stdlib Require Import ZArith Lia.
From stdpp Require Import base option list gmap strings pretty fin_maps.

Local Open Scope string_scope.

(** ** Python values and exceptions *)

(** The values a database column or an entity attribute holds here. *)
Inductive PyVal : Type :=
  | PyNone
  | PyBool (b : bool)
  | PyInt (z : Z)
  | PyStr (s : string).

Global Instance PyVal_eq_dec : EqDecision PyVal.
Proof. solve_decision. Defined.

(** The exceptions the module can raise, and the ones its collaborators
    raise into it. *)
Inductive exn : Type :=
  | KeyError (key : string)
  | NameError (name : string)
  | AttributeError (attr : string)
  | IndexError
  | TypeError
  | ClientError (msg : string)        (* boto3 secrets manager *)
  | OperationalError (msg : string)   (* psycopg2.connect *)
  | DatabaseError (msg : string).     (* cursor.execute / fetchall *)

Inductive result (A : Type) : Type :=
  | Ok (a : A)
  | Err (e : exn).
Arguments Ok {A} a.
Arguments Err {A} e.

Global Instance result_ret : MRet result := fun _ a => Ok a.
Global Instance result_bind : MBind result := fun _ _ f r =>
  match r with
  | Ok a => f a
  | Err e => Err e
  end.

(** [str(v)] *)
Definition py_str (v : PyVal) : string :=
  match v with
  | PyNone => "None"
  | PyBool true => "True"
  | PyBool false => "False"
  | PyInt z => pretty z
  | PyStr s => s
  end.

(** [v[lo:hi]] for literal bounds [0 <= lo <= hi]: defined on strings
    only, where it never raises; the other values are not subscriptable. *)
Definition py_slice (v : PyVal) (lo hi : nat) : result PyVal :=
  match v with
  | PyStr s => Ok (PyStr (String.substring lo (hi - lo) s))
  | _ => Err TypeError
  end.

(** [sep.join(l)] *)
Fixpoint join (sep : string) (l : list string) : string :=
  match l with
  | [] => ""
  | [x] => x
  | x :: rest => x +:+ sep +:+ join sep rest
  end.

(** An object is its attribute dictionary. *)
Abbreviation Obj := (gmap string PyVal).
(** A [dict] with string keys. *)
Abbreviation Dict := (gmap string PyVal).

(** [obj.name] *)
Definition getattr (obj : Obj) (name : string) : result PyVal :=
  match obj !! name with
  | Some v => Ok v
  | None => Err (AttributeError name)
  end.

(** ** class DoSService *)

Module DoSService.

Definition db_columns : list string :=
  [ "id"; "uid"; "name"; "odscode"; "address"; "town"; "postcode"; "web";
    "email"; "fax"; "nonpublicphone"; "typeid"; "parentid"; "subregionid";
    "statusid"; "createdtime"; "modifiedtime"; "publicphone"; "publicname" ].

(** The loop of [__init__]: [for i, attribute_name in enumerate(columns)],
    started at index [i]. *)
Fixpoint init_loop (columns : list string) (i : nat)
    (db_cursor_row : list PyVal) (self : Obj) : result Obj :=
  match columns with
  | [] => Ok self
  | attribute_name :: rest =>
      match db_cursor_row !! i with
      | None => Err IndexError
      | Some attrbute_value =>
          init_loop rest (S i) db_cursor_row (<[attribute_name := attrbute_value]> self)
      end
  end.

(** [DoSService(db_cursor_row)] *)
Definition init (db_cursor_row : list PyVal) : result Obj :=
  init_loop db_columns 0 db_cursor_row ∅.

(** [self.odscode[0:5]] *)
Definition ods5 (self : Obj) : result PyVal :=
  odscode ← getattr self "odscode";
  py_slice odscode 0 5.

(** [DoSService.__repr__]; [self.publicname] and [self.name] are read
    once for the test and once more for the assignment. *)
Definition repr (self : Obj) : result string :=
  publicname ← getattr self "publicname";
  name ←
    (if bool_decide (publicname ≠ PyNone) then getattr self "publicname"
     else
       name ← getattr self "name";
       if bool_decide (name ≠ PyNone) then getattr self "name"
       else mret (PyStr "NO-VALID-NAME"));
  uid ← getattr self "uid";
  odscode ← getattr self "odscode";
  typeid ← getattr self "typeid";
  statusid ← getattr self "statusid";
  mret ("<uid=" +:+ py_str uid +:+ " ods=" +:+ py_str odscode +:+ " type=" +:+ py_str typeid
        +:+ " status=" +:+ py_str statusid +:+ " name='" +:+ py_str name +:+ "'>").

End DoSService.

(** ** Field comparison *)

(** [False] if equal, [True] if not equal. *)
Definition compare_values (dos_value nhs_uk_value : PyVal) : bool :=
  let not_equal := false in
  let not_equal :=
    if bool_decide (py_str dos_value ≠ py_str nhs_uk_value) then true else not_equal in
  not_equal.

Definition add_to_change_request_if_not_equal
    (changes : Dict) (change_key : string) (dos_value nhs_uk_value : PyVal) : Dict :=
  if compare_values dos_value nhs_uk_value
  then <[change_key := nhs_uk_value]> changes
  else changes.

(** [DoSService.get_changes]; the attribute reads are in the order Python
    evaluates the arguments of each call. *)
Definition get_changes (self nhs_entity : Obj) : result Dict :=
  let changes : Dict := ∅ in
  web ← getattr self "web";
  Website ← getattr nhs_entity "Website";
  let changes := add_to_change_request_if_not_equal changes "website" web Website in
  postcode ← getattr self "postcode";
  Postcode ← getattr nhs_entity "Postcode";
  let changes := add_to_change_request_if_not_equal changes "postcode" postcode Postcode in
  publicphone ← getattr self "publicphone";
  Phone ← getattr nhs_entity "Phone";
  let changes := add_to_change_request_if_not_equal changes "publicphone" publicphone Phone in
  publicname ← getattr self "publicname";
  OrganisationName ← getattr nhs_entity "OrganisationName";
  let changes :=
    add_to_change_request_if_not_equal changes "publicname" publicname OrganisationName in
  mret changes.

(** The four tracked fields, with the key each one has in the change
    request and the attribute that holds it on either side. *)
Inductive Tracked : Type := TWebsite | TPostcode | TPublicPhone | TPublicName.

Definition change_key (f : Tracked) : string :=
  match f with
  | TWebsite => "website"
  | TPostcode => "postcode"
  | TPublicPhone => "publicphone"
  | TPublicName => "publicname"
  end.

Definition dos_attr (f : Tracked) : string :=
  match f with
  | TWebsite => "web"
  | TPostcode => "postcode"
  | TPublicPhone => "publicphone"
  | TPublicName => "publicname"
  end.

Definition nhs_attr (f : Tracked) : string :=
  match f with
  | TWebsite => "Website"
  | TPostcode => "Postcode"
  | TPublicPhone => "Phone"
  | TPublicName => "OrganisationName"
  end.

(** The entity exposes the four attributes [get_changes] reads. *)
Definition exposes_tracked (nhs_entity : Obj) : Prop :=
  ∀ f, is_Some (nhs_entity !! nhs_attr f).

(** The two sides of a tracked field have different string forms. *)
Definition differs (self nhs_entity : Obj) (f : Tracked) : Prop :=
  py_str <$> (self !! dos_attr f) ≠ py_str <$> (nhs_entity !! nhs_attr f).

(** ** The outside world

    [get_matching_dos_services] reads the process environment, asks the
    secrets manager for the database password, opens a connection with
    the database driver and runs one statement on a cursor.  A [World]
    holds what these collaborators answer; every call made to one of
    them, and every log line, is an [Event] of the run's trace. *)

Inductive Event : Type :=
  | LogInfo (msg : string)
  | LogDebug (msg : string)
  | GetSecretValue (SecretId : string)
  | Connect (host port dbname user password : string) (connect_timeout : Z)
  | Cursor
  | Execute (query : string) (vars : option (list PyVal))
  | FetchAll.

(** An open connection: what [execute(query, vars)] on its cursor does,
    either raising or leaving the rows [fetchall] then returns. *)
Record Connection : Type := {
  conn_execute : string → option (list PyVal) → result (list (list PyVal))
}.

(** The driver module: [psycopg2.connect(host=, port=, dbname=, user=,
    password=, connect_timeout=)]. *)
Record Psycopg2 : Type := {
  connect : string → string → string → string → string → Z → result Connection
}.

Record World : Type := {
  (** [os.environ] *)
  environ : gmap string string;
  (** [secrets_manager.get_secret_value(SecretId=...)], the response dict *)
  get_secret_value : string → result (gmap string string);
  (** What the global name [psycopg2] is bound to in the module's
      namespace when the function runs.  The module's own import is
      [from psycopg2 import connect], which binds [connect] only, so this
      is [None] unless the caller has put the name there. *)
  psycopg2 : option Psycopg2
}.

(** [d[key]] on a dict of strings *)
Definition getitem (d : gmap string string) (key : string) : result string :=
  match d !! key with
  | Some v => Ok v
  | None => Err (KeyError key)
  end.

(** Reading a global name of the module. *)
Definition global_psycopg2 (w : World) : result Psycopg2 :=
  match psycopg2 w with
  | Some m => Ok m
  | None => Err (NameError "psycopg2")
  end.

(** A run: the events so far and either a value or the exception that
    ended it. *)
Definition io (A : Type) : Type := (list Event * result A)%type.

Global Instance io_ret : MRet io := fun _ a => ([], Ok a).
Global Instance io_bind : MBind io := fun _ _ f m =>
  let '(t, r) := m in
  match r with
  | Ok a => let '(t', r') := f a in ((t ++ t')%list, r')
  | Err e => (t, Err e)
  end.

(** A step that touches nothing outside. *)
Definition pure {A} (r : result A) : io A := ([], r).
(** A call to a collaborator, with its answer. *)
Definition call {A} (ev : Event) (r : result A) : io A := ([ev], r).

Definition trace {A} (m : io A) : list Event := m.1.
Definition outcome {A} (m : io A) : result A := m.2.

(** The statements a run sent to [cursor.execute], in order. *)
Fixpoint queries (t : list Event) : list (string * option (list PyVal)) :=
  match t with
  | [] => []
  | Execute query vars :: t => (query, vars) :: queries t
  | _ :: t => queries t
  end.

(** ** get_matching_dos_services *)

(** Line 149: the text of the statement. *)
Definition sql_command (odscode : PyVal) : result string :=
  prefix ← py_slice odscode 0 5;
  mret ("SELECT " +:+ join ", " DoSService.db_columns
        +:+ " FROM services WHERE odscode LIKE '" +:+ py_str prefix +:+ "%'").

Definition get_matching_dos_services (w : World) (odscode : PyVal) : io (list Obj) :=
  _ ← call (LogInfo ("Searching for DoS services with ODSCode that matches first 5 digits of '"
                     +:+ py_str odscode +:+ "'")) (Ok ());
  server ← pure (getitem (environ w) "DB_SERVER");
  port ← pure (getitem (environ w) "DB_PORT");
  db_name ← pure (getitem (environ w) "DB_NAME");
  db_user ← pure (getitem (environ w) "DB_USER_NAME");
  secret_name ← pure (getitem (environ w) "DB_SECRET_NAME");
  secret_response ← call (GetSecretValue secret_name) (get_secret_value w secret_name);
  password ← pure (getitem secret_response "SecretString");
  _ ← call (LogInfo ("Attempting connection to database '" +:+ server +:+ "'")) (Ok ());
  _ ← call (LogDebug ("host=" +:+ server +:+ ", port=" +:+ port +:+ ", dbname=" +:+ db_name
                      +:+ ", user=" +:+ db_user +:+ ", password=" +:+ password)) (Ok ());
  driver ← pure (global_psycopg2 w);
  db ← call (Connect server port db_name db_user password 30)
            (connect driver server port db_name db_user password 30);
  sql ← pure (sql_command odscode);
  _ ← call (LogInfo ("Created SQL command to run: " +:+ sql)) (Ok ());
  _ ← call Cursor (Ok ());
  rows ← call (Execute sql None) (conn_execute db sql None);
  _ ← call FetchAll (Ok ());
  services ← pure (mapM DoSService.init rows);
  mret services.

(** ** The remaining functions of the module *)

(** [get_addresses]: both addresses are the empty string, whatever the
    arguments. *)
Definition get_addresses (nhs_uk_entity dos_service : Obj) : string * string :=
  let nhs_uk_address := "" in
  let dos_address := "" in
  (nhs_uk_address, dos_address).

(** [random.choices(population, k=k)] followed by ["".join]: [k] draws
    with replacement.  The random source is a sequence [rng] of naturals
    read from position [pos] on; a draw [r] selects the character at
    index [r mod len(population)], which stands for
    [floor(random() * len(population))].  An empty population raises
    [IndexError]. *)
Fixpoint choices (population : string) (k : nat) (rng : nat → nat) (pos : nat)
    : result string :=
  match k with
  | O => Ok ""
  | S k' =>
      match String.get (rng pos mod String.length population) population with
      | None => Err IndexError
      | Some c =>
          rest ← choices population k' rng (S pos);
          mret (String c rest)
      end
  end.

(** The loop of [dummy_dos_service]: [for col in DoSService.db_columns]. *)
Fixpoint dummy_loop (columns : list string) (rng : nat → nat) (pos : nat)
    (test_data : list PyVal) : result (list PyVal) :=
  match columns with
  | [] => Ok test_data
  | col :: rest =>
      random_str ← choices "ABCDEFGHIJKLM" 8 rng pos;
      dummy_loop rest rng (pos + 8) (test_data ++ [PyStr random_str])%list
  end.

Definition dummy_dos_service (rng : nat → nat) : result Obj :=
  test_data ← dummy_loop DoSService.db_columns rng 0 [];
  DoSService.init test_data.

(** ** application/common/logger.py

    The logging context travels through the process environment: the
    middleware writes it there and the log filter reads it back. *)

(** [os.getenv(key)] *)
Definition getenv (env : gmap string string) (key : string) : PyVal :=
  match env !! key with
  | Some v => PyStr v
  | None => PyNone
  end.

(** [os.environ[key] = value]: the environment holds strings only. *)
Definition environ_set (env : gmap string string) (key : string) (value : PyVal)
    : gmap string string * result unit :=
  match value with
  | PyStr v => (<[key := v]> env, Ok ())
  | _ => (env, Err TypeError)
  end.

(** [export_logging_variables(context)]: the environment it leaves and
    whether it raised; an assignment made before a failing step stays
    made. *)
Definition export_logging_variables (context : Obj) (env : gmap string string)
    : gmap string string * result unit :=
  match getattr context "function_name" with
  | Err e => (env, Err e)
  | Ok function_name =>
      match environ_set env "LOGGING_FUNCTION_NAME" (PyStr (py_str function_name)) with
      | (env, Err e) => (env, Err e)
      | (env, Ok _) =>
          match getattr context "aws_request_id" with
          | Err e => (env, Err e)
          | Ok aws_request_id =>
              match environ_set env "LOGGING_REQUEST_ID" (PyStr (py_str aws_request_id)) with
              | (env, Err e) => (env, Err e)
              | (env, Ok _) =>
                  let x_ray_trace_id := getenv env "_X_AMZN_TRACE_ID" in
                  let x_ray_trace_id :=
                    if bool_decide (x_ray_trace_id = PyNone) then PyStr "00000-00000-00000"
                    else x_ray_trace_id in
                  environ_set env "LOGGING_X_AMZN_TRACE_ID" x_ray_trace_id
              end
          end
      end
  end.

(** [LambdaFilter.filter(record)]: the record with its three fields set,
    and the verdict. *)
Definition LambdaFilter_filter (env : gmap string string) (record : Obj) : Obj * bool :=
  let record := <["function_name" := getenv env "LOGGING_FUNCTION_NAME"]> record in
  let record := <["aws_request_id" := getenv env "LOGGING_REQUEST_ID"]> record in
  let record := <["x_ray_trace_id" := getenv env "LOGGING_X_AMZN_TRACE_ID"]> record in
  (record, true).

(** What the logging library and the wrapped handler do: whether
    [fileConfig] accepts the configuration file, whether [setLevel]
    accepts a level name, and what the handler returns in a given
    environment. *)
Record Logging : Type := {
  fileConfig : result unit;
  setLevel : string → result unit
}.

Inductive LogCall : Type :=
  | CallFileConfig
  | CallGetLogger (name : string)
  | CallSetLevel (level : string)
  | CallDebug (msg : string)
  | CallAddFilter
  | CallHandler.

(** [set_log_level(logger)]: the calls made on the logger, and whether it
    raised. *)
Definition set_log_level (lib : Logging) (env : gmap string string)
    : list LogCall * result unit :=
  match getitem env "LOG_LEVEL" with
  | Err e => ([], Err e)
  | Ok log_level =>
      match setLevel lib log_level with
      | Err e => ([CallSetLevel log_level], Err e)
      | Ok _ =>
          ([CallSetLevel log_level; CallDebug ("Logger set to " +:+ log_level +:+ " mode")],
           Ok ())
      end
  end.

(** [setup_logger(handler, event, context)]: the environment it leaves,
    the calls it made, and the handler's result or the exception. *)
Definition setup_logger (lib : Logging)
    (handler : PyVal → Obj → gmap string string → result PyVal)
    (event : PyVal) (context : Obj) (env : gmap string string)
    : gmap string string * list LogCall * result PyVal :=
  match fileConfig lib with
  | Err e => (env, [CallFileConfig], Err e)
  | Ok _ =>
      match export_logging_variables context env with
      | (env, Err e) => (env, [CallFileConfig; CallGetLogger "lambda"], Err e)
      | (env, Ok _) =>
          match set_log_level lib env with
          | (calls, Err e) =>
              (env, ([CallFileConfig; CallGetLogger "lambda"] ++ calls)%list, Err e)
          | (calls, Ok _) =>
              (env,
               ([CallFileConfig; CallGetLogger "lambda"] ++ calls
                ++ [CallAddFilter; CallHandler])%list,
               handler event context env)
          end
      end
  end.

(** The settings [get_matching_dos_services] reads, in the order it reads
    them. *)
Definition db_settings : list string :=
  [ "DB_SERVER"; "DB_PORT"; "DB_NAME"; "DB_USER_NAME"; "DB_SECRET_NAME" ].

(** ** Vocabulary of the properties *)

(** A service object carries the four attributes [get_changes] reads. *)
Definition carries_tracked (self : Obj) : Prop :=
  ∀ f, is_Some (self !! dos_attr f).

(** The position of each tracked attribute in a row. *)
Definition dos_column (f : Tracked) : nat :=
  match f with
  | TWebsite => 7
  | TPostcode => 6
  | TPublicPhone => 17
  | TPublicName => 18
  end.

(** The collaborators take a run as far as an open connection [db]: the
    five settings are in the environment, the secret is returned with
    its string, the name [psycopg2] resolves and [connect] succeeds. *)
Definition opens (w : World) (db : Connection) : Prop :=
  ∃ server port db_name db_user secret_name secret_response password driver,
    environ w !! "DB_SERVER" = Some server ∧
    environ w !! "DB_PORT" = Some port ∧
    environ w !! "DB_NAME" = Some db_name ∧
    environ w !! "DB_USER_NAME" = Some db_user ∧
    environ w !! "DB_SECRET_NAME" = Some secret_name ∧
    get_secret_value w secret_name = Ok secret_response ∧
    secret_response !! "SecretString" = Some password ∧
    psycopg2 w = Some driver ∧
    connect driver server port db_name db_user password 30 = Ok db.

(** The text of a prefix lookup. *)
Definition like_statement (prefix : string) : string :=
  "SELECT " +:+ join ", " DoSService.db_columns
  +:+ " FROM services WHERE odscode LIKE '" +:+ prefix +:+ "%'".

(** [needle] is a contiguous part of [text]. *)
Definition occurs_in (needle text : string) : Prop :=
  ∃ before after, text = before +:+ needle +:+ after.

(** The reading of the specification: each statement a lookup sends has
    bound parameters, and the identifier's prefix is not part of its
    text. *)
Definition sends_prefix_as_parameter (w : World) (odscode : string) : Prop :=
  ∀ query vars,
    (query, vars) ∈ queries (trace (get_matching_dos_services w (PyStr odscode))) →
    is_Some vars ∧ ¬ occurs_in (String.substring 0 5 odscode) query.

(** What [dummy_dos_service] puts in every column: eight letters of
    A to M. *)
Definition dummy_value (v : PyVal) : Prop :=
  ∃ s, v = PyStr s ∧ String.length s = 8%nat ∧
    ∀ c, c ∈ String.list_ascii_of_string s → c ∈ String.list_ascii_of_string "ABCDEFGHIJKLM".

(** The settings and the secret take a run as far as the driver: the
    five settings are in the environment and the secret comes back with
    [password] as its string. *)
Definition configured (w : World) (server port db_name db_user secret_name password : string)
    : Prop :=
  environ w !! "DB_SERVER" = Some server ∧
  environ w !! "DB_PORT" = Some port ∧
  environ w !! "DB_NAME" = Some db_name ∧
  environ w !! "DB_USER_NAME" = Some db_user ∧
  environ w !! "DB_SECRET_NAME" = Some secret_name ∧
  ∃ secret_response,
    get_secret_value w secret_name = Ok secret_response ∧
    secret_response !! "SecretString" = Some password.

(** The events of a run up to and including the debug line. *)
Definition events_to_driver (odscode : PyVal)
    (server port db_name db_user secret_name password : string) : list Event :=
  [ LogInfo ("Searching for DoS services with ODSCode that matches first 5 digits of '"
             +:+ py_str odscode +:+ "'");
    GetSecretValue secret_name;
    LogInfo ("Attempting connection to database '" +:+ server +:+ "'");
    LogDebug ("host=" +:+ server +:+ ", port=" +:+ port +:+ ", dbname=" +:+ db_name
              +:+ ", user=" +:+ db_user +:+ ", password=" +:+ password) ].

(** ** Sample data and sample worlds *)

(** A row of the [services] table, in the order of [db_columns]. *)
Definition pharmacy_row : list PyVal :=
  [ PyInt 4711; PyStr "161799"; PyStr "Old Pharmacy Ltd"; PyStr "FA123";
    PyStr "1 High Street"; PyStr "Anytown"; PyStr "AB1 2CD"; PyStr "oldsite.com";
    PyNone; PyNone; PyStr "09999"; PyInt 13; PyInt 1; PyInt 2; PyInt 1;
    PyStr "2021-11-01 09:00:00"; PyStr "2021-11-02 09:00:00";
    PyStr "01234"; PyStr "Old Pharmacy" ].

Definition pharmacy_service : Obj :=
  match DoSService.init pharmacy_row with
  | Ok svc => svc
  | Err _ => ∅
  end.

Definition pharmacy_entity : Obj :=
  list_to_map [ ("ODSCode", PyStr "FA12345"); ("Website", PyStr "newsite.com");
                ("Postcode", PyStr "AB1 2CD"); ("Phone", PyStr "01234");
                ("OrganisationName", PyStr "New Pharmacy") ].

(** A second sample pair: the stored public name and the entity's
    organisation name differ in letter case only. *)
Definition main_street_row : list PyVal :=
  <[18%nat := PyStr "Main Street"]> pharmacy_row.

Definition main_street_service : Obj :=
  match DoSService.init main_street_row with
  | Ok svc => svc
  | Err _ => ∅
  end.

Definition main_street_entity : Obj :=
  <["OrganisationName" := PyStr "main street"]> pharmacy_entity.

(** Only the website differs from [pharmacy_row]'s. *)
Definition moved_site_entity : Obj :=
  <["OrganisationName" := PyStr "Old Pharmacy"]> pharmacy_entity.

(** A stored row without a website, and an entity whose website is the
    four letters "None". *)
Definition no_website_row : list PyVal := <[7%nat := PyNone]> pharmacy_row.

Definition no_website_service : Obj :=
  match DoSService.init no_website_row with
  | Ok svc => svc
  | Err _ => ∅
  end.

Definition none_text_entity : Obj := <["Website" := PyStr "None"]> pharmacy_entity.

Definition sample_environ : gmap string string :=
  list_to_map [ ("DB_SERVER", "dos-db.example"); ("DB_PORT", "5432");
                ("DB_NAME", "pathwaysdos"); ("DB_USER_NAME", "dos_reader");
                ("DB_SECRET_NAME", "dos-db-password") ].

Definition sample_secrets (SecretId : string) : result (gmap string string) :=
  if decide (SecretId = "dos-db-password")
  then Ok {[ "SecretString" := "s3cret" ]}
  else Err (ClientError "ResourceNotFoundException").

(** A second branch under the same first five characters, and a service
    whose code is two characters long. *)
Definition branch_row : list PyVal :=
  <[3%nat := PyStr "FA123B"]> (<[1%nat := PyStr "161800"]> pharmacy_row).

Definition branch_service : Obj :=
  match DoSService.init branch_row with
  | Ok svc => svc
  | Err _ => ∅
  end.

Definition short_code_row : list PyVal :=
  <[3%nat := PyStr "AB"]> (<[1%nat := PyStr "161801"]> pharmacy_row).

Definition short_code_service : Obj :=
  match DoSService.init short_code_row with
  | Ok svc => svc
  | Err _ => ∅
  end.

Definition sample_table : list (list PyVal) :=
  [ pharmacy_row; branch_row; short_code_row ].

Definition row_odscode (row : list PyVal) : string :=
  match row !! 3%nat with
  | Some (PyStr code) => code
  | _ => ""
  end.

(** [row] is selected by [query] when [query] is the prefix lookup for
    the first [n] characters of the row's code, for some [n] up to 5. *)
Definition row_matches (query : string) (row : list PyVal) : bool :=
  existsb (fun n => String.eqb query (like_statement (String.substring 0 n (row_odscode row))))
          (seq 0 6).

(** A store that holds [sample_table] and answers prefix lookups. *)
Definition sample_connection : Connection :=
  {| conn_execute := fun query _ => Ok (List.filter (row_matches query) sample_table) |}.

Definition sample_driver : Psycopg2 :=
  {| connect := fun _ _ _ _ _ _ => Ok sample_connection |}.

(** The module with the name [psycopg2] put into its namespace. *)
Definition patched_world : World :=
  {| environ := sample_environ; get_secret_value := sample_secrets;
     psycopg2 := Some sample_driver |}.

(** The module as its own imports leave it. *)
Definition imported_world : World :=
  {| environ := sample_environ; get_secret_value := sample_secrets;
     psycopg2 := None |}.


(** A row whose code column is NULL. *)
Definition null_code_row : list PyVal := <[3%nat := PyNone]> pharmacy_row.

Definition null_code_service : Obj :=
  match DoSService.init null_code_row with
  | Ok svc => svc
  | Err _ => ∅
  end.

(** [pharmacy_service] after the changes for [pharmacy_entity] are
    written to it. *)
Definition updated_pharmacy_service : Obj :=
  <["web" := PyStr "newsite.com"]> (<["publicname" := PyStr "New Pharmacy"]> pharmacy_service).

(** A store that rejects every statement, and one whose second row lacks
    its last column. *)
Definition rejecting_world : World :=
  {| environ := sample_environ; get_secret_value := sample_secrets;
     psycopg2 := Some {| connect := fun _ _ _ _ _ _ =>
       Ok {| conn_execute := fun _ _ => Err (DatabaseError "syntax error") |} |} |}.

Definition truncating_connection : Connection :=
  {| conn_execute := fun _ _ => Ok [ pharmacy_row; take 18 pharmacy_row ] |}.

Definition truncating_world : World :=
  {| environ := sample_environ; get_secret_value := sample_secrets;
     psycopg2 := Some {| connect := fun _ _ _ _ _ _ => Ok truncating_connection |} |}.

(** An invocation context, a logging library that accepts the usual
    level names, and a handler that answers with the request id it finds
    in its environment. *)
Definition sample_context : Obj :=
  list_to_map [ ("function_name", PyStr "event-processor");
                ("aws_request_id", PyStr "req-0001") ].

Definition sample_logging : Logging :=
  {| fileConfig := Ok ();
     setLevel := fun level =>
       if bool_decide (level ∈ ["CRITICAL"; "ERROR"; "WARNING"; "INFO"; "DEBUG"])
       then Ok () else Err TypeError |}.

Definition echo_handler (event : PyVal) (context : Obj) (env : gmap string string)
    : result PyVal :=
  Ok (getenv env "LOGGING_REQUEST_ID").

(** * Properties *)

(** ** String forms *)

Example py_str_values :
  py_str PyNone = "None" ∧ py_str (PyBool true) = "True" ∧
  py_str (PyInt 0) = "0" ∧ py_str (PyInt (-42)) = "-42" ∧
  py_str (PyStr "AB1 2CD") = "AB1 2CD".
Proof. repeat split. Qed.

Lemma compare_values_true (a b : PyVal) :
  compare_values a b = true ↔ py_str a ≠ py_str b.
Proof.
  unfold compare_values. case_bool_decide; split; intros; congruence.
Qed.

Lemma compare_values_false (a b : PyVal) :
  compare_values a b = false ↔ py_str a = py_str b.
Proof.
  rewrite <- not_true_iff_false, compare_values_true.
  split; [apply dec_stable | tauto].
Qed.

(** ** The change request *)

Ltac tracked_attrs Hs He :=
  let go H f := (let v := fresh "v" in let E := fresh "E" in
                 destruct (H f) as [v E]; simpl in E) in
  go Hs TWebsite; go Hs TPostcode; go Hs TPublicPhone; go Hs TPublicName;
  go He TWebsite; go He TPostcode; go He TPublicPhone; go He TPublicName.

(** What [get_changes] returns on objects that have the attributes: one
    entry per tracked field whose two sides compare unequal, holding the
    entity's value, and nothing else. *)
Lemma get_changes_entries (self nhs_entity : Obj) :
  carries_tracked self → exposes_tracked nhs_entity →
  ∃ changes, get_changes self nhs_entity = Ok changes ∧
    (∀ f d n, self !! dos_attr f = Some d → nhs_entity !! nhs_attr f = Some n →
       changes !! change_key f = if compare_values d n then Some n else None) ∧
    (∀ k, is_Some (changes !! k) → ∃ f, k = change_key f).
Proof.
  intros Hs He. tracked_attrs Hs He.
  unfold get_changes, getattr.
  rewrite E, E0, E1, E2, E3, E4, E5, E6.
  simpl. eexists; split; [reflexivity|].
  unfold add_to_change_request_if_not_equal.
  split.
  - intros f d n Hd Hn.
    destruct f; simpl in *; simplify_eq;
      repeat (match goal with |- context [compare_values ?a ?b] =>
                destruct (compare_values a b) end);
      by simplify_map_eq.
  - intros k [x Hk].
    destruct (decide (k = "website")) as [->|]; [by exists TWebsite|].
    destruct (decide (k = "postcode")) as [->|]; [by exists TPostcode|].
    destruct (decide (k = "publicphone")) as [->|]; [by exists TPublicPhone|].
    destruct (decide (k = "publicname")) as [->|]; [by exists TPublicName|].
    exfalso.
    repeat (match goal with H : context [compare_values ?a ?b] |- _ =>
                destruct (compare_values a b) end);
      by simplify_map_eq.
Qed.

(** ** Building a service from a row *)

Lemma init_loop_frame (columns : list string) :
  ∀ (i : nat) (row : list PyVal) (self svc : Obj) (name : string),
    DoSService.init_loop columns i row self = Ok svc →
    name ∉ columns → svc !! name = self !! name.
Proof.
  induction columns as [|c columns IH]; intros i row self svc name Hrun Hnot; simpl in Hrun.
  - by simplify_eq.
  - destruct (row !! i) as [v|]; [|done].
    apply not_elem_of_cons in Hnot as [Hne Hnot].
    rewrite (IH _ _ _ _ _ Hrun Hnot). by rewrite lookup_insert_ne.
Qed.

(** Column [j] of the list ends up as the attribute of that name, read
    from position [i + j] of the row. *)
Lemma init_loop_lookup (columns : list string) :
  ∀ (i : nat) (row : list PyVal) (self svc : Obj) (j : nat) (name : string),
    NoDup columns →
    DoSService.init_loop columns i row self = Ok svc →
    columns !! j = Some name →
    is_Some (svc !! name) ∧ svc !! name = row !! (i + j)%nat.
Proof.
  induction columns as [|c columns IH]; intros i row self svc j name Hnd Hrun Hj;
    simpl in Hrun; [done|].
  destruct (row !! i) as [v|] eqn:Hv; [|done].
  apply NoDup_cons in Hnd as [Hc Hnd].
  destruct j as [|j]; simpl in Hj.
  - simplify_eq. rewrite (init_loop_frame _ _ _ _ _ _ Hrun Hc).
    rewrite lookup_insert_eq, Nat.add_0_r, Hv. eauto.
  - replace (i + S j)%nat with (S i + j)%nat by lia. by eapply IH.
Qed.

Lemma init_loop_total (columns : list string) :
  ∀ (i : nat) (row : list PyVal) (self : Obj),
    (i + length columns ≤ length row)%nat →
    ∃ svc, DoSService.init_loop columns i row self = Ok svc.
Proof.
  induction columns as [|c columns IH]; intros i row self Hlen; simpl in *; [eauto|].
  destruct (lookup_lt_is_Some_2 row i) as [v ->]; [lia|].
  apply IH. lia.
Qed.

Lemma db_columns_NoDup : NoDup DoSService.db_columns.
Proof. apply (bool_decide_unpack _). by vm_compute. Qed.

Lemma dos_column_attr (f : Tracked) :
  DoSService.db_columns !! dos_column f = Some (dos_attr f).
Proof. by destruct f. Qed.

Lemma init_tracked (row : list PyVal) (svc : Obj) (f : Tracked) :
  DoSService.init row = Ok svc →
  is_Some (svc !! dos_attr f) ∧ svc !! dos_attr f = row !! dos_column f.
Proof.
  intros Hrun.
  apply (init_loop_lookup _ 0 row ∅ svc (dos_column f) (dos_attr f)
           db_columns_NoDup Hrun (dos_column_attr f)).
Qed.

Lemma init_carries_tracked (row : list PyVal) (svc : Obj) :
  DoSService.init row = Ok svc → carries_tracked svc.
Proof. intros Hrun f. by apply (init_tracked row svc f). Qed.

(** A row with all 19 columns always makes a service. *)
Lemma init_full_row (row : list PyVal) :
  (length DoSService.db_columns ≤ length row)%nat →
  ∃ svc, DoSService.init row = Ok svc.
Proof. intros Hlen. by apply init_loop_total. Qed.

(** ** Claims about the reconciliation engine *)

Lemma differs_compare_values (self nhs_entity : Obj) (f : Tracked) (d n : PyVal) :
  self !! dos_attr f = Some d → nhs_entity !! nhs_attr f = Some n →
  differs self nhs_entity f ↔ compare_values d n = true.
Proof.
  intros Hd Hn. unfold differs. rewrite Hd, Hn, compare_values_true. simpl.
  split; intros H; congruence.
Qed.

(** C1. For a service built from a row and an entity with the four
    attributes, [get_changes] returns a change request that has the key
    of a tracked field exactly when the two sides of that field have
    different string forms, and has no other key; when no tracked field
    differs it is the empty dict. *)
Theorem get_changes_key_iff_differs (row : list PyVal) (self nhs_entity : Obj) :
  DoSService.init row = Ok self → exposes_tracked nhs_entity →
  ∃ changes, get_changes self nhs_entity = Ok changes ∧
    (∀ f, is_Some (changes !! change_key f) ↔ differs self nhs_entity f) ∧
    (∀ k, is_Some (changes !! k) → ∃ f, k = change_key f) ∧
    ((∀ f, ¬ differs self nhs_entity f) → changes = ∅).
Proof.
  intros Hinit He. pose proof (init_carries_tracked _ _ Hinit) as Hs.
  destruct (get_changes_entries self nhs_entity Hs He) as (changes & Hrun & Hkey & Hdom).
  exists changes. split; [done|].
  assert (Hiff : ∀ f, is_Some (changes !! change_key f) ↔ differs self nhs_entity f).
  { intros f. destruct (Hs f) as [d Hd], (He f) as [n Hn].
    rewrite (Hkey f d n Hd Hn), (differs_compare_values _ _ _ _ _ Hd Hn).
    by destruct (compare_values d n); split; intros H. }
  split; [done|]. split; [done|].
  intros Hsame. apply map_eq. intros k. rewrite lookup_empty.
  apply eq_None_not_Some. intros Hk.
  destruct (Hdom k Hk) as [f ->]. by apply (Hsame f), Hiff.
Qed.

Lemma get_changes_key_iff_differs_witness :
  ∃ changes, get_changes pharmacy_service pharmacy_entity = Ok changes ∧
    (∀ f, is_Some (changes !! change_key f) ↔ differs pharmacy_service pharmacy_entity f) ∧
    (∀ k, is_Some (changes !! k) → ∃ f, k = change_key f) ∧
    ((∀ f, ¬ differs pharmacy_service pharmacy_entity f) → changes = ∅).
Proof.
  apply (get_changes_key_iff_differs pharmacy_row pharmacy_service pharmacy_entity).
  - reflexivity.
  - intros []; by eexists.
Defined.

(** C2. Two values compare equal exactly when their string forms are the
    same string; on strings that is equality of the strings themselves,
    so letter case, surrounding blanks and "0" against "" all count as
    differences; a stored public name "Main Street" against an
    organisation name "main street" puts [publicname] in the change
    request. *)
Theorem compare_values_string_forms (row : list PyVal) (self nhs_entity : Obj) :
  DoSService.init row = Ok self → exposes_tracked nhs_entity →
  self !! dos_attr TPublicName = Some (PyStr "Main Street") →
  nhs_entity !! nhs_attr TPublicName = Some (PyStr "main street") →
  (∀ a b, compare_values a b = false ↔ py_str a = py_str b) ∧
  (∀ s t, compare_values (PyStr s) (PyStr t) = false ↔ s = t) ∧
  compare_values (PyStr "0") (PyStr "") = true ∧
  compare_values (PyStr " Main Street ") (PyStr "Main Street") = true ∧
  compare_values (PyStr "Main Street") (PyStr "main street") = true ∧
  ∃ changes, get_changes self nhs_entity = Ok changes ∧
    changes !! change_key TPublicName = Some (PyStr "main street").
Proof.
  intros Hinit He Hd Hn.
  split; [apply compare_values_false|].
  split; [intros s t; apply compare_values_false|].
  do 3 (split; [by apply compare_values_true|]).
  destruct (get_changes_entries self nhs_entity (init_carries_tracked _ _ Hinit) He)
    as (changes & Hrun & Hkey & _).
  exists changes. split; [done|].
  by rewrite (Hkey _ _ _ Hd Hn).
Qed.

Lemma compare_values_string_forms_witness :
  compare_values (PyStr "Main Street") (PyStr "main street") = true ∧
  ∃ changes, get_changes main_street_service main_street_entity = Ok changes ∧
    changes !! "publicname" = Some (PyStr "main street").
Proof.
  refine ((fun H => conj (proj1 (proj2 (proj2 (proj2 (proj2 H)))))
                         (proj2 (proj2 (proj2 (proj2 (proj2 H))))))
            (compare_values_string_forms main_street_row main_street_service
               main_street_entity _ _ _ _)).
  - reflexivity.
  - intros []; by eexists.
  - reflexivity.
  - reflexivity.
Defined.

(** C3. When exactly one tracked field differs, the change request is the
    one-entry dict that maps that field's key to the entity's value as
    supplied. *)
Theorem get_changes_single_difference
    (row : list PyVal) (self nhs_entity : Obj) (f : Tracked) :
  DoSService.init row = Ok self → exposes_tracked nhs_entity →
  differs self nhs_entity f →
  (∀ g, g ≠ f → ¬ differs self nhs_entity g) →
  ∃ changes v, get_changes self nhs_entity = Ok changes ∧
    nhs_entity !! nhs_attr f = Some v ∧
    changes = {[ change_key f := v ]} ∧ size changes = 1%nat.
Proof.
  intros Hinit He Hf Hothers. pose proof (init_carries_tracked _ _ Hinit) as Hs.
  destruct (get_changes_entries self nhs_entity Hs He) as (changes & Hrun & Hkey & Hdom).
  destruct (Hs f) as [d Hd], (He f) as [v Hv].
  assert (changes = {[ change_key f := v ]}) as ->.
  { apply map_eq. intros k.
    destruct (decide (k = change_key f)) as [->|Hne].
    - rewrite lookup_singleton_eq, (Hkey f d v Hd Hv).
      by apply (differs_compare_values _ _ _ _ _ Hd Hv) in Hf as ->.
    - rewrite lookup_singleton_ne by done.
      apply eq_None_not_Some. intros Hk.
      destruct (Hdom k Hk) as [g ->].
      assert (g ≠ f) as Hgf by congruence.
      destruct (Hs g) as [d' Hd'], (He g) as [n' Hn'].
      rewrite (Hkey g d' n' Hd' Hn') in Hk.
      destruct (compare_values d' n') eqn:Hc; [|by apply is_Some_None in Hk].
      by apply (Hothers g Hgf), (differs_compare_values _ _ _ _ _ Hd' Hn'). }
  exists {[ change_key f := v ]}, v. by rewrite map_size_singleton.
Qed.

Lemma get_changes_single_difference_witness :
  ∃ changes v, get_changes pharmacy_service moved_site_entity = Ok changes ∧
    moved_site_entity !! "Website" = Some v ∧
    changes = {[ "website" := v ]} ∧ size changes = 1%nat.
Proof.
  apply (get_changes_single_difference pharmacy_row pharmacy_service moved_site_entity TWebsite).
  - reflexivity.
  - intros []; by eexists.
  - by vm_compute.
  - intros [] Hg; try done; by vm_compute.
Defined.

(** C8. On a row that has all the columns and an entity that has the four
    attributes, building the service succeeds and [get_changes] returns a
    change request; it raises nothing. *)
Theorem get_changes_total (row : list PyVal) (nhs_entity : Obj) :
  (length DoSService.db_columns ≤ length row)%nat → exposes_tracked nhs_entity →
  ∃ self changes, DoSService.init row = Ok self ∧
    get_changes self nhs_entity = Ok changes ∧
    ∀ e, get_changes self nhs_entity ≠ Err e.
Proof.
  intros Hlen He.
  destruct (init_full_row row Hlen) as [self Hinit].
  destruct (get_changes_entries self nhs_entity (init_carries_tracked _ _ Hinit) He)
    as (changes & Hrun & _).
  exists self, changes. repeat split; [done..|].
  intros e. by rewrite Hrun.
Qed.

Lemma get_changes_total_witness :
  ∃ self changes, DoSService.init pharmacy_row = Ok self ∧
    get_changes self pharmacy_entity = Ok changes ∧
    ∀ e, get_changes self pharmacy_entity ≠ Err e.
Proof.
  apply (get_changes_total pharmacy_row pharmacy_entity).
  - simpl. lia.
  - intros []; by eexists.
Defined.

(** C9. The end-to-end scenario: website and public name differ, postcode
    and phone do not, and the change request is exactly the two-entry
    dict with the entity's website and organisation name. *)
Theorem get_changes_pharmacy_scenario (self nhs_entity : Obj) :
  self !! "web" = Some (PyStr "oldsite.com") →
  self !! "postcode" = Some (PyStr "AB1 2CD") →
  self !! "publicphone" = Some (PyStr "01234") →
  self !! "publicname" = Some (PyStr "Old Pharmacy") →
  nhs_entity !! "Website" = Some (PyStr "newsite.com") →
  nhs_entity !! "Postcode" = Some (PyStr "AB1 2CD") →
  nhs_entity !! "Phone" = Some (PyStr "01234") →
  nhs_entity !! "OrganisationName" = Some (PyStr "New Pharmacy") →
  ∃ changes, get_changes self nhs_entity = Ok changes ∧
    changes = {[ "website" := PyStr "newsite.com"; "publicname" := PyStr "New Pharmacy" ]} ∧
    changes !! "postcode" = None ∧ changes !! "publicphone" = None.
Proof.
  intros Hw Hp Hph Hn HW HP HPh HN.
  unfold get_changes, getattr. rewrite Hw, Hp, Hph, Hn, HW, HP, HPh, HN.
  cbn [mbind result_bind mret result_ret].
  unfold add_to_change_request_if_not_equal.
  rewrite (proj2 (compare_values_true (PyStr "oldsite.com") (PyStr "newsite.com"))) by done.
  rewrite (proj2 (compare_values_false (PyStr "AB1 2CD") (PyStr "AB1 2CD"))) by done.
  rewrite (proj2 (compare_values_false (PyStr "01234") (PyStr "01234"))) by done.
  rewrite (proj2 (compare_values_true (PyStr "Old Pharmacy") (PyStr "New Pharmacy"))) by done.
  eexists. split; [reflexivity|].
  split; [by apply insert_insert_ne|].
  by rewrite !lookup_insert_ne, lookup_empty.
Qed.

Lemma get_changes_pharmacy_scenario_witness :
  ∃ changes, get_changes pharmacy_service pharmacy_entity = Ok changes ∧
    changes = {[ "website" := PyStr "newsite.com"; "publicname" := PyStr "New Pharmacy" ]} ∧
    changes !! "postcode" = None ∧ changes !! "publicphone" = None.
Proof.
  apply (get_changes_pharmacy_scenario pharmacy_service pharmacy_entity); reflexivity.
Defined.

(** C10. A stored [None] has the string form "None", so it compares equal
    to an entity value that is [None] or the text "None", and the field
    is left out of the change request. *)
Theorem get_changes_None_text_omitted
    (row : list PyVal) (self nhs_entity : Obj) (f : Tracked) (v : PyVal) :
  DoSService.init row = Ok self → exposes_tracked nhs_entity →
  self !! dos_attr f = Some PyNone →
  nhs_entity !! nhs_attr f = Some v →
  v = PyNone ∨ v = PyStr "None" →
  compare_values PyNone v = false ∧
  ∃ changes, get_changes self nhs_entity = Ok changes ∧
    changes !! change_key f = None.
Proof.
  intros Hinit He Hd Hn Hv.
  assert (compare_values PyNone v = false) as Hc.
  { apply compare_values_false. by destruct Hv as [-> | ->]. }
  split; [done|].
  destruct (get_changes_entries self nhs_entity (init_carries_tracked _ _ Hinit) He)
    as (changes & Hrun & Hkey & _).
  exists changes. split; [done|].
  by rewrite (Hkey f _ _ Hd Hn), Hc.
Qed.

Lemma get_changes_None_text_omitted_witness :
  compare_values PyNone (PyStr "None") = false ∧
  ∃ changes, get_changes no_website_service none_text_entity = Ok changes ∧
    changes !! "website" = None.
Proof.
  apply (get_changes_None_text_omitted no_website_row no_website_service
           none_text_entity TWebsite (PyStr "None")).
  - reflexivity.
  - intros []; by eexists.
  - reflexivity.
  - reflexivity.
  - right. reflexivity.
Defined.

(** ** Runs of get_matching_dos_services *)

Section run_equations.
Context {A B : Type}.
Implicit Types (m : io A) (f : A → io B) (r : result A).

Lemma trace_bind m f :
  trace (m ≫= f) =
  (trace m ++ match outcome m with Ok a => trace (f a) | Err _ => [] end)%list.
Proof.
  destruct m as [t [a|e]]; unfold mbind, io_bind, trace, outcome; simpl.
  - by destruct (f a).
  - by rewrite app_nil_r.
Qed.

Lemma outcome_bind m f :
  outcome (m ≫= f) = match outcome m with Ok a => outcome (f a) | Err e => Err e end.
Proof.
  destruct m as [t [a|e]]; unfold mbind, io_bind, trace, outcome; simpl; [|done].
  by destruct (f a).
Qed.

Lemma trace_call ev r : trace (call ev r) = [ev].
Proof. done. Qed.
Lemma outcome_call ev r : outcome (call ev r) = r.
Proof. done. Qed.
Lemma trace_pure r : trace (pure r) = [].
Proof. done. Qed.
Lemma outcome_pure r : outcome (pure r) = r.
Proof. done. Qed.
Lemma trace_mret (a : A) : trace (mret a : io A) = [].
Proof. done. Qed.
Lemma outcome_mret (a : A) : outcome (mret a : io A) = Ok a.
Proof. done. Qed.
End run_equations.

Create Rewrite HintDb run.
#[export] Hint Rewrite @trace_bind @outcome_bind @trace_call @outcome_call
  @trace_pure @outcome_pure @trace_mret @outcome_mret : run.

Ltac run_simpl := autorewrite with run; cbn [queries app].

Ltac run_start :=
  unfold get_matching_dos_services, getitem, global_psycopg2; run_simpl.

(** Case split on the next answer a run waits for. *)
Ltac run_step :=
  match goal with
  | |- context [match ?x with Some _ => _ | None => _ end] =>
      lazymatch x with
      | context [match _ with _ => _ end] => fail
      | _ => destruct x eqn:?
      end
  | |- context [match ?x with Ok _ => _ | Err _ => _ end] =>
      lazymatch x with
      | context [match _ with _ => _ end] => fail
      | _ => destruct x eqn:?
      end
  end; run_simpl.

(** Every run sends at most one statement; its text is the one line 149
    builds, and no parameters go with it. *)
Lemma get_matching_queries (w : World) (odscode : PyVal) :
  queries (trace (get_matching_dos_services w odscode)) = [] ∨
  ∃ sql, sql_command odscode = Ok sql ∧
    queries (trace (get_matching_dos_services w odscode)) = [(sql, None)].
Proof.
  run_start. repeat run_step; eauto.
Qed.


(** A run that returns had an open connection, and sent its one
    statement on it. *)
Lemma get_matching_Ok (w : World) (odscode : PyVal) (services : list Obj) :
  outcome (get_matching_dos_services w odscode) = Ok services →
  ∃ db sql rows, opens w db ∧ sql_command odscode = Ok sql ∧
    conn_execute db sql None = Ok rows ∧
    mapM DoSService.init rows = Ok services ∧
    queries (trace (get_matching_dos_services w odscode)) = [(sql, None)].
Proof.
  run_start. repeat run_step; try done.
  intros [= <-]. eexists _, _, _. split; [|by eauto].
  unfold opens. repeat eexists; eassumption.
Qed.

Lemma sql_command_str (s : string) :
  sql_command (PyStr s) = Ok (like_statement (String.substring 0 5 s)).
Proof. reflexivity. Qed.

Lemma sql_command_Ok (odscode : PyVal) (sql : string) :
  sql_command odscode = Ok sql →
  ∃ s, odscode = PyStr s ∧ sql = like_statement (String.substring 0 5 s).
Proof.
  destruct odscode as [| | |s]; try done.
  rewrite sql_command_str. intros [= <-]. eauto.
Qed.

Lemma substring_short (s : string) :
  ∀ n, (String.length s ≤ n)%nat → String.substring 0 n s = s.
Proof.
  induction s as [|c s IH]; intros [|n] Hlen; simpl in *; try done; try lia.
  f_equal. apply IH. lia.
Qed.



(** With the module's own imports nothing reaches the database. *)
Lemma get_matching_as_imported (w : World) (odscode : PyVal) :
  psycopg2 w = None →
  queries (trace (get_matching_dos_services w odscode)) = [] ∧
  ∀ services, outcome (get_matching_dos_services w odscode) ≠ Ok services.
Proof.
  intros Himp. split.
  - run_start. rewrite Himp. by repeat run_step.
  - intros services Hrun.
    destruct (get_matching_Ok _ _ _ Hrun) as (db & sql & rows & Hopen & _).
    destruct Hopen as (? & ? & ? & ? & ? & ? & ? & driver
                       & _ & _ & _ & _ & _ & _ & _ & Hdriver & _).
    congruence.
Qed.

Example get_matching_imported_world :
  get_matching_dos_services imported_world (PyStr "FA12345") =
  ([ LogInfo "Searching for DoS services with ODSCode that matches first 5 digits of 'FA12345'";
     GetSecretValue "dos-db-password";
     LogInfo "Attempting connection to database 'dos-db.example'";
     LogDebug "host=dos-db.example, port=5432, dbname=pathwaysdos, user=dos_reader, password=s3cret" ],
   Err (NameError "psycopg2")).
Proof. reflexivity. Qed.

Example get_matching_patched_world :
  queries (trace (get_matching_dos_services patched_world (PyStr "FA12345")))
    = [ (like_statement "FA123", None) ] ∧
  outcome (get_matching_dos_services patched_world (PyStr "FA12345"))
    = Ok [ pharmacy_service; branch_service ] ∧
  outcome (get_matching_dos_services patched_world (PyStr "FA'12345")) = Ok [].
Proof. repeat split. Qed.

(** ** Claims about the lookup *)

(** C4, as the specification states it, fails: the statement goes to
    [execute] without parameters, and the prefix of the identifier is in
    its text, quote included. *)
Lemma sends_prefix_as_parameter_fails :
  ¬ sends_prefix_as_parameter patched_world "FA'12345".
Proof.
  intros H.
  destruct (H (like_statement "FA'12") None) as [[vars Hvars] _]; [|done].
  apply list_elem_of_singleton. reflexivity.
Qed.

(** C4, amended. Every statement a lookup sends is the fixed SELECT text
    with the first five characters of the identifier written, as they
    are, between [LIKE '] and [%']; [execute] gets no parameters. *)
Theorem get_matching_interpolates_prefix
    (w : World) (odscode : PyVal) (query : string) (vars : option (list PyVal)) :
  (query, vars) ∈ queries (trace (get_matching_dos_services w odscode)) →
  vars = None ∧
  ∃ s, odscode = PyStr s ∧
    query = like_statement (String.substring 0 5 s) ∧
    occurs_in (String.substring 0 5 s) query.
Proof.
  intros Hin.
  destruct (get_matching_queries w odscode) as [Hnone | (sql & Hsql & Hone)].
  - rewrite Hnone in Hin. by apply elem_of_nil in Hin.
  - rewrite Hone in Hin. apply list_elem_of_singleton in Hin as [= -> ->].
    split; [done|].
    destruct (sql_command_Ok _ _ Hsql) as (s & -> & ->).
    exists s. repeat split.
    exists ("SELECT " +:+ join ", " DoSService.db_columns
            +:+ " FROM services WHERE odscode LIKE '"), "%'".
    reflexivity.
Qed.

Lemma get_matching_interpolates_prefix_witness :
  (None : option (list PyVal)) = None ∧
  ∃ s, PyStr "FA'12345" = PyStr s ∧
    like_statement "FA'12" = like_statement (String.substring 0 5 s) ∧
    occurs_in (String.substring 0 5 s) (like_statement "FA'12").
Proof.
  apply (get_matching_interpolates_prefix patched_world (PyStr "FA'12345")
           (like_statement "FA'12") None).
  apply list_elem_of_singleton. reflexivity.
Defined.

(** C5. Identifiers with the same first five characters give the same
    statement text, and in any world the same statements sent and the
    same outcome. *)
Theorem get_matching_first_five (w : World) (a b : string) :
  String.substring 0 5 a = String.substring 0 5 b →
  sql_command (PyStr a) = sql_command (PyStr b) ∧
  queries (trace (get_matching_dos_services w (PyStr a))) =
    queries (trace (get_matching_dos_services w (PyStr b))) ∧
  outcome (get_matching_dos_services w (PyStr a)) =
    outcome (get_matching_dos_services w (PyStr b)).
Proof.
  intros Hab.
  assert (sql_command (PyStr a) = sql_command (PyStr b)) as Hsql.
  { by rewrite !sql_command_str, Hab. }
  split; [done|].
  unfold get_matching_dos_services. rewrite Hsql.
  split.
  - by rewrite !(trace_bind (call _ _)), !trace_call, !outcome_call.
  - by rewrite !(outcome_bind (call (LogInfo _) _)), !outcome_call.
Qed.

Lemma get_matching_first_five_witness :
  sql_command (PyStr "FA12345") = sql_command (PyStr "FA123-dispensary") ∧
  queries (trace (get_matching_dos_services patched_world (PyStr "FA12345"))) =
    queries (trace (get_matching_dos_services patched_world (PyStr "FA123-dispensary"))) ∧
  outcome (get_matching_dos_services patched_world (PyStr "FA12345")) =
    outcome (get_matching_dos_services patched_world (PyStr "FA123-dispensary")).
Proof.
  apply (get_matching_first_five patched_world "FA12345" "FA123-dispensary").
  reflexivity.
Defined.








(** The amended C7 on the sample store: the lookup for "AB" returns the
    one service whose code starts with it. *)
Example short_identifier_patched_world :
  outcome (get_matching_dos_services patched_world (PyStr "AB")) = Ok [short_code_service] ∧
  queries (trace (get_matching_dos_services patched_world (PyStr "AB")))
    = [(like_statement "AB", None)] ∧
  DoSService.ods5 short_code_service = Ok (PyStr "AB").
Proof. repeat split. Qed.

(** * Further properties of the module *)

(** ** Construction, [__repr__] and [ods5] *)

Lemma init_loop_Err (columns : list string) :
  ∀ (i : nat) (row : list PyVal) (self : Obj) (e : exn),
    DoSService.init_loop columns i row self = Err e →
    e = IndexError ∧ (length row < i + length columns)%nat.
Proof.
  induction columns as [|c columns IH]; intros i row self e Hrun; simpl in Hrun; [done|].
  destruct (row !! i) as [v|] eqn:Hv.
  - destruct (IH _ _ _ _ Hrun) as [-> Hlen]. split; [done|]. simpl. lia.
  - simplify_eq. split; [done|]. apply lookup_ge_None in Hv. simpl. lia.
Qed.

Lemma init_loop_app (columns : list string) :
  ∀ (i : nat) (row extra : list PyVal) (self svc : Obj),
    DoSService.init_loop columns i row self = Ok svc →
    DoSService.init_loop columns i (row ++ extra)%list self = Ok svc.
Proof.
  induction columns as [|c columns IH]; intros i row extra self svc Hrun; simpl in *; [done|].
  destruct (row !! i) as [v|] eqn:Hv; [|done].
  rewrite (lookup_app_l_Some _ _ _ _ Hv). by apply IH.
Qed.

(** X1. A row makes a service exactly when it has at least the 19
    columns; a shorter row raises [IndexError] and nothing else. *)
Theorem init_row_length (row : list PyVal) :
  match DoSService.init row with
  | Ok _ => (19 ≤ length row)%nat
  | Err e => e = IndexError ∧ (length row < 19)%nat
  end.
Proof.
  destruct (DoSService.init row) as [svc|e] eqn:Hrun.
  - destruct (init_loop_lookup _ 0 row ∅ svc 18 "publicname" db_columns_NoDup Hrun eq_refl)
      as [[v Hv] Heq].
    rewrite Heq in Hv. apply lookup_lt_Some in Hv. simpl in Hv. lia.
  - by apply init_loop_Err in Hrun.
Qed.

(** X2. [__init__] stores, under each column name, the row's value at
    that column's position; values after the 19th are ignored. *)
Theorem init_attributes (row extra : list PyVal) (svc : Obj) :
  DoSService.init row = Ok svc →
  (∀ j name, DoSService.db_columns !! j = Some name →
     is_Some (row !! j) ∧ svc !! name = row !! j) ∧
  DoSService.init (row ++ extra)%list = Ok svc.
Proof.
  intros Hrun. split.
  - intros j name Hname.
    destruct (init_loop_lookup _ 0 row ∅ svc j name db_columns_NoDup Hrun Hname) as [Hs Heq].
    simpl in Heq. by rewrite <- Heq.
  - by apply init_loop_app.
Qed.

Lemma init_attributes_witness :
  (∀ j name, DoSService.db_columns !! j = Some name →
     is_Some (pharmacy_row !! j) ∧ pharmacy_service !! name = pharmacy_row !! j) ∧
  DoSService.init (pharmacy_row ++ [PyStr "extra"])%list = Ok pharmacy_service.
Proof.
  apply (init_attributes pharmacy_row [PyStr "extra"] pharmacy_service).
  reflexivity.
Defined.

Lemma init_column (row : list PyVal) (svc : Obj) (j : nat) (name : string) (v : PyVal) :
  DoSService.init row = Ok svc →
  DoSService.db_columns !! j = Some name → row !! j = Some v →
  svc !! name = Some v.
Proof.
  intros Hrun Hname Hv.
  destruct (init_loop_lookup _ 0 row ∅ svc j name db_columns_NoDup Hrun Hname) as [_ ->].
  done.
Qed.

(** X3. The text of a service shows its uid, code, type and status, and
    as its name the public name unless that is [None], else the name
    unless that is [None], else NO-VALID-NAME; an empty public name still
    takes precedence over the name. *)
Theorem repr_effective_name
    (row : list PyVal) (svc : Obj) (uid odscode typeid statusid name publicname : PyVal) :
  DoSService.init row = Ok svc →
  row !! 1%nat = Some uid → row !! 3%nat = Some odscode →
  row !! 11%nat = Some typeid → row !! 14%nat = Some statusid →
  row !! 2%nat = Some name → row !! 18%nat = Some publicname →
  DoSService.repr svc =
    Ok ("<uid=" +:+ py_str uid +:+ " ods=" +:+ py_str odscode +:+ " type=" +:+ py_str typeid
        +:+ " status=" +:+ py_str statusid +:+ " name='"
        +:+ (if decide (publicname = PyNone)
             then if decide (name = PyNone) then "NO-VALID-NAME" else py_str name
             else py_str publicname)
        +:+ "'>").
Proof.
  intros Hrun Huid Hods Htype Hstatus Hname Hpublic.
  unfold DoSService.repr, getattr.
  rewrite (init_column row svc 18 "publicname" publicname Hrun eq_refl Hpublic).
  rewrite (init_column row svc 2 "name" name Hrun eq_refl Hname).
  rewrite (init_column row svc 1 "uid" uid Hrun eq_refl Huid).
  rewrite (init_column row svc 3 "odscode" odscode Hrun eq_refl Hods).
  rewrite (init_column row svc 11 "typeid" typeid Hrun eq_refl Htype).
  rewrite (init_column row svc 14 "statusid" statusid Hrun eq_refl Hstatus).
  cbn [mbind result_bind mret result_ret].
  destruct (decide (publicname = PyNone)) as [->|Hp].
  - rewrite bool_decide_eq_false_2 by naive_solver.
    cbn [mbind result_bind mret result_ret].
    destruct (decide (name = PyNone)) as [->|Hn].
    + by rewrite bool_decide_eq_false_2 by naive_solver.
    + by rewrite bool_decide_eq_true_2 by done.
  - by rewrite bool_decide_eq_true_2 by done.
Qed.

Lemma repr_effective_name_witness :
  DoSService.repr pharmacy_service =
    Ok "<uid=161799 ods=FA123 type=13 status=1 name='Old Pharmacy'>".
Proof.
  apply (repr_effective_name pharmacy_row pharmacy_service (PyStr "161799") (PyStr "FA123")
           (PyInt 13) (PyInt 1) (PyStr "Old Pharmacy Ltd") (PyStr "Old Pharmacy"));
    reflexivity.
Defined.

Lemma substring_0_length (s : string) :
  ∀ n, String.length (String.substring 0 n s) = (n `min` String.length s)%nat.
Proof.
  induction s as [|c s IH]; intros [|n]; simpl; try done.
  by rewrite IH.
Qed.

Lemma substring_0_prefix (s : string) :
  ∀ n, String.prefix (String.substring 0 n s) s = true.
Proof.
  induction s as [|c s IH]; intros [|n]; simpl; try done.
  destruct (Ascii.ascii_dec c c); [apply IH | done].
Qed.

Lemma substring_0_idemp (s : string) (n : nat) :
  String.substring 0 n (String.substring 0 n s) = String.substring 0 n s.
Proof. apply substring_short. rewrite substring_0_length. lia. Qed.

(** X4. [ods5] of a service whose code is a string is the start of that
    code, five characters long or the whole code when that is shorter. *)
Theorem ods5_prefix (self : Obj) (code : string) :
  self !! "odscode" = Some (PyStr code) →
  ∃ p, DoSService.ods5 self = Ok (PyStr p) ∧
    String.length p = (5 `min` String.length code)%nat ∧
    String.prefix p code = true.
Proof.
  intros Hcode. unfold DoSService.ods5, getattr. rewrite Hcode.
  exists (String.substring 0 5 code). split; [done|].
  split; [apply substring_0_length | apply substring_0_prefix].
Qed.

Lemma ods5_prefix_witness :
  ∃ p, DoSService.ods5 branch_service = Ok (PyStr p) ∧
    String.length p = (5 `min` String.length "FA123B")%nat ∧
    String.prefix p "FA123B" = true.
Proof. apply (ods5_prefix branch_service "FA123B"). reflexivity. Defined.

Lemma init_column_is_Some (row : list PyVal) (svc : Obj) (j : nat) (name : string) :
  DoSService.init row = Ok svc → DoSService.db_columns !! j = Some name →
  is_Some (svc !! name).
Proof.
  intros Hrun Hname.
  by destruct (init_loop_lookup _ 0 row ∅ svc j name db_columns_NoDup Hrun Hname).
Qed.

Lemma repr_total (row : list PyVal) (svc : Obj) :
  DoSService.init row = Ok svc → ∃ text, DoSService.repr svc = Ok text.
Proof.
  intros Hrun.
  destruct (init_column_is_Some row svc 1 "uid" Hrun eq_refl) as [uid Huid].
  destruct (init_column_is_Some row svc 2 "name" Hrun eq_refl) as [name Hname].
  destruct (init_column_is_Some row svc 3 "odscode" Hrun eq_refl) as [ods Hods].
  destruct (init_column_is_Some row svc 11 "typeid" Hrun eq_refl) as [typeid Htype].
  destruct (init_column_is_Some row svc 14 "statusid" Hrun eq_refl) as [statusid Hstatus].
  destruct (init_column_is_Some row svc 18 "publicname" Hrun eq_refl) as [publicname Hpublic].
  unfold DoSService.repr, getattr. rewrite Hpublic, Hname, Huid, Hods, Htype, Hstatus.
  cbn [mbind result_bind mret result_ret].
  repeat (case_bool_decide; cbn [mbind result_bind mret result_ret]); by eexists.
Qed.

(** X5. A row whose code column holds no string (a NULL, a number) still
    makes a service, and that service still has a text, but its [ods5]
    raises [TypeError]. *)
Theorem ods5_without_code (row : list PyVal) (svc : Obj) (v : PyVal) :
  DoSService.init row = Ok svc →
  row !! 3%nat = Some v → (∀ s, v ≠ PyStr s) →
  DoSService.ods5 svc = Err TypeError ∧ ∃ text, DoSService.repr svc = Ok text.
Proof.
  intros Hrun Hv Hnot. split; [|by eapply repr_total].
  unfold DoSService.ods5, getattr.
  rewrite (init_column row svc 3 "odscode" v Hrun eq_refl Hv).
  destruct v; naive_solver.
Qed.

Lemma ods5_without_code_witness :
  DoSService.ods5 null_code_service = Err TypeError ∧
  ∃ text, DoSService.repr null_code_service = Ok text.
Proof.
  apply (ods5_without_code null_code_row null_code_service PyNone).
  - reflexivity.
  - reflexivity.
  - done.
Defined.

(** X6. Looking up by a service's [ods5] sends the same statement as
    looking up by its whole code: the statement for the code is the
    prefix lookup for the [ods5]. *)
Theorem ods5_statement (row : list PyVal) (svc : Obj) (code : string) :
  DoSService.init row = Ok svc → row !! 3%nat = Some (PyStr code) →
  ∃ p, DoSService.ods5 svc = Ok (PyStr p) ∧
    sql_command (PyStr code) = Ok (like_statement p) ∧
    sql_command (PyStr p) = Ok (like_statement p).
Proof.
  intros Hrun Hcode. exists (String.substring 0 5 code).
  unfold DoSService.ods5, getattr.
  rewrite (init_column row svc 3 "odscode" _ Hrun eq_refl Hcode).
  rewrite !sql_command_str, substring_0_idemp. done.
Qed.

Lemma ods5_statement_witness :
  ∃ p, DoSService.ods5 branch_service = Ok (PyStr p) ∧
    sql_command (PyStr "FA123B") = Ok (like_statement p) ∧
    sql_command (PyStr p) = Ok (like_statement p).
Proof. apply (ods5_statement branch_row branch_service "FA123B"); reflexivity. Defined.

(** ** Comparison and the change request *)

(** X7. Numbers compare by value, and a number compares equal to the
    text of its decimal digits on either side: the comparison does not
    see the type. *)
Theorem compare_values_numbers (a b : Z) :
  (compare_values (PyInt a) (PyInt b) = false ↔ a = b) ∧
  compare_values (PyInt a) (PyStr (pretty a)) = false ∧
  compare_values (PyStr (pretty a)) (PyInt a) = false.
Proof.
  rewrite !compare_values_false. simpl. repeat split; try done.
  - apply (inj pretty).
  - by intros ->.
Qed.

(** X8. Adding to a change request never removes an entry: every entry
    is still there afterwards, and it has its old value unless it is the
    entry of the given key and the two values compare unequal. *)
Theorem add_to_change_request_keeps
    (changes : Dict) (key : string) (dos_value nhs_uk_value : PyVal) (k : string) (v : PyVal) :
  changes !! k = Some v →
  ∃ v', add_to_change_request_if_not_equal changes key dos_value nhs_uk_value !! k = Some v' ∧
    (k ≠ key ∨ compare_values dos_value nhs_uk_value = false → v' = v).
Proof.
  intros Hk. unfold add_to_change_request_if_not_equal.
  destruct (compare_values dos_value nhs_uk_value) eqn:Hc.
  - destruct (decide (k = key)) as [->|Hne].
    + exists nhs_uk_value. rewrite lookup_insert_eq. split; [done|]. by intros [|].
    + exists v. by rewrite lookup_insert_ne.
  - by exists v.
Qed.

Lemma add_to_change_request_keeps_witness :
  ∃ v', add_to_change_request_if_not_equal {[ "website" := PyStr "stale.example" ]}
          "website" (PyStr "oldsite.com") (PyStr "oldsite.com") !! "website" = Some v' ∧
    ("website" ≠ "website" ∨ compare_values (PyStr "oldsite.com") (PyStr "oldsite.com") = false →
     v' = PyStr "stale.example").
Proof.
  apply (add_to_change_request_keeps {[ "website" := PyStr "stale.example" ]} "website"
           (PyStr "oldsite.com") (PyStr "oldsite.com") "website" (PyStr "stale.example")).
  reflexivity.
Defined.

(** X9. [get_changes] returns exactly when the service has the four
    stored attributes and the entity the four it is compared with;
    otherwise it raises [AttributeError] for an attribute that is
    missing. *)
Theorem get_changes_attributes (self nhs_entity : Obj) :
  match get_changes self nhs_entity with
  | Ok _ => carries_tracked self ∧ exposes_tracked nhs_entity
  | Err e =>
      ∃ attr, e = AttributeError attr ∧
        ((∃ f, attr = dos_attr f ∧ self !! attr = None) ∨
         (∃ f, attr = nhs_attr f ∧ nhs_entity !! attr = None))
  end.
Proof.
  unfold get_changes, getattr.
  repeat (match goal with
          | |- context [match ?m !! ?k with Some _ => _ | None => _ end] =>
              destruct (m !! k) eqn:?; cbn [mbind result_bind mret result_ret]
          end);
    try (eexists; split; [reflexivity|];
         solve [ left; (exists TWebsite + exists TPostcode
                        + exists TPublicPhone + exists TPublicName); by split
               | right; (exists TWebsite + exists TPostcode
                         + exists TPublicPhone + exists TPublicName); by split ]).
  split; intros []; simpl; eauto.
Qed.

(** X10. Only the four compared attributes count: services that agree on
    them, against entities that agree on theirs, get the same change
    request, whatever else differs (name, address, status, ...). *)
Theorem get_changes_only_tracked (self self' nhs_entity nhs_entity' : Obj) :
  (∀ f, self !! dos_attr f = self' !! dos_attr f) →
  (∀ f, nhs_entity !! nhs_attr f = nhs_entity' !! nhs_attr f) →
  get_changes self nhs_entity = get_changes self' nhs_entity'.
Proof.
  intros Hs He. unfold get_changes, getattr.
  pose proof (Hs TWebsite) as H1. pose proof (Hs TPostcode) as H2.
  pose proof (Hs TPublicPhone) as H3. pose proof (Hs TPublicName) as H4.
  pose proof (He TWebsite) as H5. pose proof (He TPostcode) as H6.
  pose proof (He TPublicPhone) as H7. pose proof (He TPublicName) as H8.
  simpl in *. by rewrite H1, H2, H3, H4, H5, H6, H7, H8.
Qed.

Lemma get_changes_only_tracked_witness :
  get_changes pharmacy_service pharmacy_entity =
  get_changes (<["address" := PyStr "2 New Road"]> (<["name" := PyNone]> pharmacy_service))
              (<["ODSCode" := PyStr "ZZ999"]> pharmacy_entity).
Proof.
  apply (get_changes_only_tracked pharmacy_service _ pharmacy_entity _).
  - intros []; reflexivity.
  - intros []; reflexivity.
Defined.

Lemma get_changes_Ok_attributes (self nhs_entity : Obj) (changes : Dict) :
  get_changes self nhs_entity = Ok changes →
  carries_tracked self ∧ exposes_tracked nhs_entity.
Proof.
  unfold get_changes, getattr.
  repeat (match goal with
          | |- context [match ?m !! ?k with Some _ => _ | None => _ end] =>
              destruct (m !! k) eqn:?; cbn [mbind result_bind mret result_ret]
          end); try done.
  intros _. split; intros []; simpl; eauto.
Qed.

(** X11. The change request is enough: once every entry is written to
    the stored attribute of its field (and the other stored attributes
    are left alone), comparing again with the same entity gives the empty
    change request. *)
Theorem get_changes_after_update (self self' nhs_entity : Obj) (changes : Dict) :
  get_changes self nhs_entity = Ok changes →
  (∀ f, self' !! dos_attr f =
        match changes !! change_key f with
        | Some v => Some v
        | None => self !! dos_attr f
        end) →
  get_changes self' nhs_entity = Ok ∅.
Proof.
  intros Hrun Hupd.
  destruct (get_changes_Ok_attributes _ _ _ Hrun) as [Hs He].
  destruct (get_changes_entries self nhs_entity Hs He) as (cs & Hcs & Hkey & _).
  rewrite Hrun in Hcs. injection Hcs as <-.
  assert (Hvals : ∀ f, ∃ d' n, self' !! dos_attr f = Some d' ∧
                    nhs_entity !! nhs_attr f = Some n ∧ compare_values d' n = false).
  { intros f. destruct (Hs f) as [d Hd], (He f) as [n Hn].
    rewrite Hupd, (Hkey f d n Hd Hn).
    destruct (compare_values d n) eqn:Hc.
    - exists n, n. repeat split; [done|]. by apply compare_values_false.
    - by exists d, n. }
  assert (Hs' : carries_tracked self').
  { intros f. destruct (Hvals f) as (d' & _ & -> & _). by eexists. }
  destruct (get_changes_entries self' nhs_entity Hs' He) as (cs' & Hcs' & Hkey' & Hdom').
  rewrite Hcs'. f_equal. apply map_eq. intros k. rewrite lookup_empty.
  apply eq_None_not_Some. intros Hk. destruct (Hdom' k Hk) as [f ->].
  destruct (Hvals f) as (d' & n & Hd' & Hn & Hc).
  rewrite (Hkey' f d' n Hd' Hn), Hc in Hk. by apply is_Some_None in Hk.
Qed.

Lemma get_changes_after_update_witness :
  get_changes updated_pharmacy_service pharmacy_entity = Ok ∅.
Proof.
  apply (get_changes_after_update pharmacy_service updated_pharmacy_service pharmacy_entity
           {[ "website" := PyStr "newsite.com"; "publicname" := PyStr "New Pharmacy" ]}).
  - reflexivity.
  - intros []; reflexivity.
Defined.

(** X12. A change request has at most four entries, and each of them is
    the entity's own value for a compared field; a stored value never
    gets into it. *)
Theorem get_changes_from_entity (self nhs_entity : Obj) (changes : Dict) :
  get_changes self nhs_entity = Ok changes →
  (size changes ≤ 4)%nat ∧
  ∀ k v, changes !! k = Some v →
    ∃ f, k = change_key f ∧ nhs_entity !! nhs_attr f = Some v.
Proof.
  intros Hrun.
  destruct (get_changes_Ok_attributes _ _ _ Hrun) as [Hs He].
  destruct (get_changes_entries self nhs_entity Hs He) as (cs & Hcs & Hkey & Hdom).
  rewrite Hrun in Hcs. injection Hcs as <-. split.
  - rewrite <- size_dom.
    transitivity (size (list_to_set (change_key <$> [TWebsite; TPostcode; TPublicPhone; TPublicName])
                        : gset string)).
    + apply subseteq_size. intros k Hk. apply elem_of_dom in Hk.
      destruct (Hdom k Hk) as [[] ->]; set_solver.
    + by vm_compute.
  - intros k v Hk. destruct (Hdom k (mk_is_Some _ _ Hk)) as [f ->].
    exists f. split; [done|].
    destruct (Hs f) as [d Hd], (He f) as [n Hn].
    rewrite (Hkey f d n Hd Hn) in Hk.
    destruct (compare_values d n); by simplify_eq.
Qed.

Lemma get_changes_from_entity_witness :
  (size ({[ "website" := PyStr "newsite.com"; "publicname" := PyStr "New Pharmacy" ]} : Dict)
     ≤ 4)%nat ∧
  ∀ k v, ({[ "website" := PyStr "newsite.com"; "publicname" := PyStr "New Pharmacy" ]} : Dict)
           !! k = Some v →
    ∃ f, k = change_key f ∧ pharmacy_entity !! nhs_attr f = Some v.
Proof.
  apply (get_changes_from_entity pharmacy_service pharmacy_entity). reflexivity.
Defined.

(** ** [dummy_dos_service] *)

Lemma string_get_Some (s : string) :
  ∀ i, (i < String.length s)%nat →
    ∃ c, String.get i s = Some c ∧ c ∈ String.list_ascii_of_string s.
Proof.
  induction s as [|a s IH]; intros i Hi; simpl in *; [lia|].
  destruct i as [|i].
  - exists a. split; [done|]. apply elem_of_cons. by left.
  - destruct (IH i) as (c & Hc & Hin); [lia|].
    exists c. split; [done|]. apply elem_of_cons. by right.
Qed.

Lemma choices_letters (population : string) (rng : nat → nat) :
  (0 < String.length population)%nat →
  ∀ k pos, ∃ s, choices population k rng pos = Ok s ∧ String.length s = k ∧
    ∀ c, c ∈ String.list_ascii_of_string s → c ∈ String.list_ascii_of_string population.
Proof.
  intros Hpop. induction k as [|k IH]; intros pos; simpl.
  - exists "". repeat split. intros c Hc. by apply elem_of_nil in Hc.
  - destruct (string_get_Some population (rng pos mod String.length population))
      as (c & -> & Hc); [apply Nat.mod_upper_bound; lia|].
    destruct (IH (S pos)) as (s & -> & Hlen & Hs). simpl.
    exists (String c s). repeat split; [simpl; lia|].
    intros c' Hc'. simpl in Hc'. apply elem_of_cons in Hc' as [->|Hc']; auto.
Qed.

Lemma dummy_loop_values (rng : nat → nat) (columns : list string) :
  ∀ pos test_data, Forall dummy_value test_data →
    ∃ data, dummy_loop columns rng pos test_data = Ok data ∧
      length data = (length test_data + length columns)%nat ∧
      Forall dummy_value data.
Proof.
  induction columns as [|col columns IH]; intros pos test_data Hdata;
    cbn [dummy_loop length].
  - exists test_data. repeat split; [lia | done].
  - destruct (choices_letters "ABCDEFGHIJKLM" rng) with (k := 8%nat) (pos := pos)
      as (s & Hs & Hlen & Hletters); [simpl; lia|].
    rewrite Hs. cbn [mbind result_bind].
    destruct (IH (pos + 8)%nat (test_data ++ [PyStr s])%list) as (data & -> & Hl & Hall).
    { apply Forall_app. split; [done|]. apply Forall_singleton. by exists s. }
    exists data. repeat split; [|done]. rewrite Hl, length_app. simpl. lia.
Qed.

(** X13. Whatever the random source gives, [dummy_dos_service] builds a
    service: every column attribute is a string of eight letters of A to
    M, so its [ods5] has five characters. *)
Theorem dummy_dos_service_builds (rng : nat → nat) :
  ∃ svc, dummy_dos_service rng = Ok svc ∧
    (∀ name, name ∈ DoSService.db_columns →
       ∃ v, svc !! name = Some v ∧ dummy_value v) ∧
    ∃ p, DoSService.ods5 svc = Ok (PyStr p) ∧ String.length p = 5%nat.
Proof.
  unfold dummy_dos_service.
  destruct (dummy_loop_values rng DoSService.db_columns 0 []) as (data & -> & Hlen & Hall);
    [constructor|].
  cbn [mbind result_bind].
  destruct (init_full_row data) as [svc Hsvc]; [rewrite Hlen; simpl; lia|].
  exists svc. split; [done|].
  assert (Hattr : ∀ name, name ∈ DoSService.db_columns →
                    ∃ v, svc !! name = Some v ∧ dummy_value v).
  { intros name Hname. apply list_elem_of_lookup in Hname as [j Hj].
    destruct (init_loop_lookup _ 0 data ∅ svc j name db_columns_NoDup Hsvc Hj) as [[v Hv] Heq].
    exists v. split; [done|]. rewrite Heq in Hv.
    by apply (Forall_lookup_1 _ _ _ _ Hall Hv). }
  split; [done|].
  destruct (Hattr "odscode") as (v & Hv & s & -> & Hs & _).
  { apply list_elem_of_lookup. by exists 3%nat. }
  exists (String.substring 0 5 s). unfold DoSService.ods5, getattr. rewrite Hv.
  split; [done|]. rewrite substring_0_length, Hs. done.
Qed.

(** ** Error paths of the lookup *)

(** A run whose settings and secret are in place, as far as the driver. *)
Lemma get_matching_configured
    (w : World) (odscode : PyVal) (server port db_name db_user secret_name password : string) :
  configured w server port db_name db_user secret_name password →
  trace (get_matching_dos_services w odscode) =
    (events_to_driver odscode server port db_name db_user secret_name password ++
     match psycopg2 w with
     | None => []
     | Some driver =>
         Connect server port db_name db_user password 30 ::
         match connect driver server port db_name db_user password 30 with
         | Err _ => []
         | Ok db =>
             match sql_command odscode with
             | Err _ => []
             | Ok sql =>
                 [ LogInfo ("Created SQL command to run: " +:+ sql); Cursor; Execute sql None ] ++
                 match conn_execute db sql None with
                 | Err _ => []
                 | Ok _ => [FetchAll]
                 end
             end
         end
     end)%list ∧
  outcome (get_matching_dos_services w odscode) =
    (driver ← global_psycopg2 w;
     db ← connect driver server port db_name db_user password 30;
     sql ← sql_command odscode;
     rows ← conn_execute db sql None;
     mapM DoSService.init rows).
Proof.
  intros (H1 & H2 & H3 & H4 & H5 & secret_response & H6 & H7).
  run_start. rewrite H1, H2, H3, H4, H5. run_simpl. rewrite H6. run_simpl.
  rewrite H7. run_simpl. unfold events_to_driver.
  destruct (psycopg2 w) as [driver|]; run_simpl; cbn [mbind result_bind]; [|done].
  destruct (connect driver server port db_name db_user password 30) as [db|];
    run_simpl; cbn [mbind result_bind]; [|done].
  destruct (sql_command odscode) as [sql|]; run_simpl; cbn [mbind result_bind]; [|done].
  destruct (conn_execute db sql None) as [rows|]; run_simpl; cbn [mbind result_bind]; [|done].
  by destruct (mapM DoSService.init rows).
Qed.

(** X14. A lookup stops at the first database setting that is missing
    from the environment, in the order server, port, name, user, secret
    name: it raises [KeyError] for that setting, and has by then written
    its first log line and done nothing else. *)
Theorem get_matching_missing_setting (w : World) (odscode : PyVal) (i : nat) (key : string) :
  db_settings !! i = Some key →
  environ w !! key = None →
  (∀ j key', (j < i)%nat → db_settings !! j = Some key' → is_Some (environ w !! key')) →
  trace (get_matching_dos_services w odscode) =
    [ LogInfo ("Searching for DoS services with ODSCode that matches first 5 digits of '"
               +:+ py_str odscode +:+ "'") ] ∧
  outcome (get_matching_dos_services w odscode) = Err (KeyError key).
Proof.
  intros Hkey Hnone Hbefore.
  assert (Hset : ∀ j key', (j < i)%nat → db_settings !! j = Some key' →
                   ∃ v, environ w !! key' = Some v).
  { intros j key' Hj Hk. by destruct (Hbefore j key' Hj Hk) as [v Hv]; exists v. }
  run_start.
  destruct i as [|[|[|[|[|i]]]]]; simpl in Hkey; simplify_eq.
  - by rewrite Hnone.
  - destruct (Hset 0%nat "DB_SERVER") as [? ->]; [lia|done|]. run_simpl.
    by rewrite Hnone.
  - destruct (Hset 0%nat "DB_SERVER") as [? ->]; [lia|done|]. run_simpl.
    destruct (Hset 1%nat "DB_PORT") as [? ->]; [lia|done|]. run_simpl.
    by rewrite Hnone.
  - destruct (Hset 0%nat "DB_SERVER") as [? ->]; [lia|done|]. run_simpl.
    destruct (Hset 1%nat "DB_PORT") as [? ->]; [lia|done|]. run_simpl.
    destruct (Hset 2%nat "DB_NAME") as [? ->]; [lia|done|]. run_simpl.
    by rewrite Hnone.
  - destruct (Hset 0%nat "DB_SERVER") as [? ->]; [lia|done|]. run_simpl.
    destruct (Hset 1%nat "DB_PORT") as [? ->]; [lia|done|]. run_simpl.
    destruct (Hset 2%nat "DB_NAME") as [? ->]; [lia|done|]. run_simpl.
    destruct (Hset 3%nat "DB_USER_NAME") as [? ->]; [lia|done|]. run_simpl.
    by rewrite Hnone.
Qed.

Lemma get_matching_missing_setting_witness :
  trace (get_matching_dos_services
           {| environ := delete "DB_NAME" sample_environ;
              get_secret_value := sample_secrets; psycopg2 := None |} (PyStr "FA12345")) =
    [ LogInfo ("Searching for DoS services with ODSCode that matches first 5 digits of '"
               +:+ py_str (PyStr "FA12345") +:+ "'") ] ∧
  outcome (get_matching_dos_services
             {| environ := delete "DB_NAME" sample_environ;
                get_secret_value := sample_secrets; psycopg2 := None |} (PyStr "FA12345"))
    = Err (KeyError "DB_NAME").
Proof.
  apply (get_matching_missing_setting _ (PyStr "FA12345") 2 "DB_NAME").
  - reflexivity.
  - reflexivity.
  - intros [|[|j]] key' Hj Hkey'; [| |lia]; simpl in Hkey'; injection Hkey' as <-;
      by eexists.
Defined.

(** X15. When the secrets manager raises, or answers without a
    [SecretString], the lookup raises that error (a [KeyError] in the
    second case) right after the call: nothing is connected to, and the
    only events are the first log line and the call. *)
Theorem get_matching_secret_failure
    (w : World) (odscode : PyVal) (server port db_name db_user secret_name : string) (e : exn) :
  environ w !! "DB_SERVER" = Some server →
  environ w !! "DB_PORT" = Some port →
  environ w !! "DB_NAME" = Some db_name →
  environ w !! "DB_USER_NAME" = Some db_user →
  environ w !! "DB_SECRET_NAME" = Some secret_name →
  (get_secret_value w secret_name = Err e ∨
   ∃ secret_response, get_secret_value w secret_name = Ok secret_response ∧
     secret_response !! "SecretString" = None ∧ e = KeyError "SecretString") →
  trace (get_matching_dos_services w odscode) =
    [ LogInfo ("Searching for DoS services with ODSCode that matches first 5 digits of '"
               +:+ py_str odscode +:+ "'");
      GetSecretValue secret_name ] ∧
  outcome (get_matching_dos_services w odscode) = Err e.
Proof.
  intros H1 H2 H3 H4 H5 Hsecret.
  run_start. rewrite H1, H2, H3, H4, H5. run_simpl.
  destruct Hsecret as [-> | (secret_response & -> & Hnone & ->)]; run_simpl; [done|].
  by rewrite Hnone.
Qed.

Lemma get_matching_secret_failure_witness :
  trace (get_matching_dos_services
           {| environ := <["DB_SECRET_NAME" := "no-such-secret"]> sample_environ;
              get_secret_value := sample_secrets; psycopg2 := Some sample_driver |}
           (PyStr "FA12345")) =
    [ LogInfo ("Searching for DoS services with ODSCode that matches first 5 digits of '"
               +:+ py_str (PyStr "FA12345") +:+ "'");
      GetSecretValue "no-such-secret" ] ∧
  outcome (get_matching_dos_services
             {| environ := <["DB_SECRET_NAME" := "no-such-secret"]> sample_environ;
                get_secret_value := sample_secrets; psycopg2 := Some sample_driver |}
             (PyStr "FA12345")) = Err (ClientError "ResourceNotFoundException").
Proof.
  apply (get_matching_secret_failure _ (PyStr "FA12345") "dos-db.example" "5432"
           "pathwaysdos" "dos_reader" "no-such-secret"); try reflexivity.
  left. reflexivity.
Defined.

(** X16. A lookup that returns has made, in this order and once each:
    its first log line, the secret request, two log lines, the connect,
    the log line with the statement, the cursor, the execute and the
    fetch; the debug line holds the password it had just been given. *)
Theorem get_matching_returning_trace (w : World) (odscode : PyVal) (services : list Obj) :
  outcome (get_matching_dos_services w odscode) = Ok services →
  ∃ server port db_name db_user secret_name password sql,
    configured w server port db_name db_user secret_name password ∧
    sql_command odscode = Ok sql ∧
    trace (get_matching_dos_services w odscode) =
      (events_to_driver odscode server port db_name db_user secret_name password ++
       [ Connect server port db_name db_user password 30;
         LogInfo ("Created SQL command to run: " +:+ sql);
         Cursor; Execute sql None; FetchAll ])%list.
Proof.
  intros Hrun.
  destruct (get_matching_Ok _ _ _ Hrun) as (db & sql & rows & Hopen & Hsql & Hrows & _).
  destruct Hopen as (server & port & db_name & db_user & secret_name & secret_response
                     & password & driver & H1 & H2 & H3 & H4 & H5 & H6 & H7 & H8 & H9).
  exists server, port, db_name, db_user, secret_name, password, sql.
  assert (configured w server port db_name db_user secret_name password) as Hconf.
  { repeat split; try done. by exists secret_response. }
  split; [done|]. split; [done|].
  destruct (get_matching_configured w odscode _ _ _ _ _ _ Hconf) as [-> _].
  by rewrite H8, H9, Hsql, Hrows.
Qed.

Lemma get_matching_returning_trace_witness :
  ∃ server port db_name db_user secret_name password sql,
    configured patched_world server port db_name db_user secret_name password ∧
    sql_command (PyStr "FA12345") = Ok sql ∧
    trace (get_matching_dos_services patched_world (PyStr "FA12345")) =
      (events_to_driver (PyStr "FA12345") server port db_name db_user secret_name password ++
       [ Connect server port db_name db_user password 30;
         LogInfo ("Created SQL command to run: " +:+ sql);
         Cursor; Execute sql None; FetchAll ])%list.
Proof.
  apply (get_matching_returning_trace patched_world (PyStr "FA12345")
           [pharmacy_service; branch_service]).
  reflexivity.
Defined.

(** X17. Once the secret has been obtained, the database password is
    written to the debug log in clear, whether or not the rest of the
    lookup succeeds. *)
Theorem get_matching_logs_password
    (w : World) (odscode : PyVal) (server port db_name db_user secret_name password : string) :
  configured w server port db_name db_user secret_name password →
  LogDebug ("host=" +:+ server +:+ ", port=" +:+ port +:+ ", dbname=" +:+ db_name
            +:+ ", user=" +:+ db_user +:+ ", password=" +:+ password)
    ∈ trace (get_matching_dos_services w odscode).
Proof.
  intros Hconf.
  destruct (get_matching_configured w odscode _ _ _ _ _ _ Hconf) as [-> _].
  apply elem_of_app. left. unfold events_to_driver.
  rewrite !elem_of_cons. auto.
Qed.

Lemma get_matching_logs_password_witness :
  LogDebug "host=dos-db.example, port=5432, dbname=pathwaysdos, user=dos_reader, password=s3cret"
    ∈ trace (get_matching_dos_services imported_world (PyStr "FA12345")).
Proof.
  apply (get_matching_logs_password imported_world (PyStr "FA12345") "dos-db.example" "5432"
           "pathwaysdos" "dos_reader" "dos-db-password" "s3cret").
  repeat split. by exists {[ "SecretString" := "s3cret" ]}.
Defined.

(** X18. With the settings and the secret in place and the name
    [psycopg2] unbound, which is how the module's own import leaves it,
    the lookup raises [NameError]: no connect, no statement. *)
Theorem get_matching_unbound_driver
    (w : World) (odscode : PyVal) (server port db_name db_user secret_name password : string) :
  configured w server port db_name db_user secret_name password →
  psycopg2 w = None →
  trace (get_matching_dos_services w odscode) =
    events_to_driver odscode server port db_name db_user secret_name password ∧
  outcome (get_matching_dos_services w odscode) = Err (NameError "psycopg2").
Proof.
  intros Hconf Hunbound.
  destruct (get_matching_configured w odscode _ _ _ _ _ _ Hconf) as [-> ->].
  unfold global_psycopg2. rewrite Hunbound. by rewrite app_nil_r.
Qed.

Lemma get_matching_unbound_driver_witness :
  trace (get_matching_dos_services imported_world (PyStr "FA12345")) =
    events_to_driver (PyStr "FA12345") "dos-db.example" "5432" "pathwaysdos" "dos_reader"
      "dos-db-password" "s3cret" ∧
  outcome (get_matching_dos_services imported_world (PyStr "FA12345"))
    = Err (NameError "psycopg2").
Proof.
  apply (get_matching_unbound_driver imported_world (PyStr "FA12345")).
  - repeat split. by exists {[ "SecretString" := "s3cret" ]}.
  - reflexivity.
Defined.

(** X19. An identifier that is not a string is found out only after the
    connection is open: the lookup connects, then raises [TypeError]
    without sending a statement. *)
Theorem get_matching_not_a_string
    (w : World) (odscode : PyVal) (server port db_name db_user secret_name password : string)
    (driver : Psycopg2) (db : Connection) :
  configured w server port db_name db_user secret_name password →
  psycopg2 w = Some driver →
  connect driver server port db_name db_user password 30 = Ok db →
  (∀ s, odscode ≠ PyStr s) →
  trace (get_matching_dos_services w odscode) =
    (events_to_driver odscode server port db_name db_user secret_name password ++
     [ Connect server port db_name db_user password 30 ])%list ∧
  outcome (get_matching_dos_services w odscode) = Err TypeError.
Proof.
  intros Hconf Hdriver Hdb Hnot.
  destruct (get_matching_configured w odscode _ _ _ _ _ _ Hconf) as [-> ->].
  unfold global_psycopg2. rewrite Hdriver. cbn [mbind result_bind]. rewrite Hdb.
  assert (sql_command odscode = Err TypeError) as ->; [|done].
  destruct odscode; naive_solver.
Qed.

Lemma get_matching_not_a_string_witness :
  trace (get_matching_dos_services patched_world PyNone) =
    (events_to_driver PyNone "dos-db.example" "5432" "pathwaysdos" "dos_reader"
       "dos-db-password" "s3cret" ++
     [ Connect "dos-db.example" "5432" "pathwaysdos" "dos_reader" "s3cret" 30 ])%list ∧
  outcome (get_matching_dos_services patched_world PyNone) = Err TypeError.
Proof.
  apply (get_matching_not_a_string patched_world PyNone _ _ _ _ "dos-db-password" _
           sample_driver sample_connection).
  - repeat split. by exists {[ "SecretString" := "s3cret" ]}.
  - reflexivity.
  - reflexivity.
  - done.
Defined.

(** X20. When the store rejects the statement, the lookup raises the
    store's error as it is; the statement was sent once and nothing was
    fetched. *)
Theorem get_matching_execute_failure
    (w : World) (odscode : PyVal) (server port db_name db_user secret_name password : string)
    (driver : Psycopg2) (db : Connection) (sql : string) (e : exn) :
  configured w server port db_name db_user secret_name password →
  psycopg2 w = Some driver →
  connect driver server port db_name db_user password 30 = Ok db →
  sql_command odscode = Ok sql →
  conn_execute db sql None = Err e →
  trace (get_matching_dos_services w odscode) =
    (events_to_driver odscode server port db_name db_user secret_name password ++
     [ Connect server port db_name db_user password 30;
       LogInfo ("Created SQL command to run: " +:+ sql); Cursor; Execute sql None ])%list ∧
  outcome (get_matching_dos_services w odscode) = Err e.
Proof.
  intros Hconf Hdriver Hdb Hsql Hexec.
  destruct (get_matching_configured w odscode _ _ _ _ _ _ Hconf) as [-> ->].
  unfold global_psycopg2. rewrite Hdriver. cbn [mbind result_bind].
  rewrite Hdb, Hsql. cbn [mbind result_bind]. by rewrite Hexec.
Qed.

Lemma get_matching_execute_failure_witness :
  trace (get_matching_dos_services rejecting_world (PyStr "FA'12345")) =
    (events_to_driver (PyStr "FA'12345") "dos-db.example" "5432" "pathwaysdos" "dos_reader"
       "dos-db-password" "s3cret" ++
     [ Connect "dos-db.example" "5432" "pathwaysdos" "dos_reader" "s3cret" 30;
       LogInfo ("Created SQL command to run: " +:+ like_statement "FA'12"); Cursor;
       Execute (like_statement "FA'12") None ])%list ∧
  outcome (get_matching_dos_services rejecting_world (PyStr "FA'12345"))
    = Err (DatabaseError "syntax error").
Proof.
  eapply (get_matching_execute_failure rejecting_world (PyStr "FA'12345")).
  - repeat split. by exists {[ "SecretString" := "s3cret" ]}.
  - reflexivity.
  - reflexivity.
  - reflexivity.
  - reflexivity.
Defined.

Lemma mapM_init_short (rows : list (list PyVal)) (row : list PyVal) :
  row ∈ rows → (length row < 19)%nat →
  mapM DoSService.init rows = Err IndexError.
Proof.
  intros Hin Hshort. induction rows as [|r rows IH]; [by apply elem_of_nil in Hin|].
  simpl. destruct (DoSService.init r) as [svc|e] eqn:Hr.
  - apply elem_of_cons in Hin as [->|Hin].
    + destruct (init_loop_lookup _ 0 r ∅ svc 18 "publicname" db_columns_NoDup Hr eq_refl)
        as [[v Hv] Heq].
      rewrite Heq in Hv. apply lookup_lt_Some in Hv. simpl in Hv. lia.
    + simpl. by rewrite (IH Hin).
  - apply init_loop_Err in Hr as [-> _]. done.
Qed.

(** X21. One short row spoils the whole lookup: when any of the rows that
    come back has fewer than 19 columns, the lookup raises [IndexError]
    after the fetch and returns none of the services, not even those of
    the full rows. *)
Theorem get_matching_short_row
    (w : World) (odscode : PyVal) (server port db_name db_user secret_name password : string)
    (driver : Psycopg2) (db : Connection) (sql : string) (rows : list (list PyVal))
    (row : list PyVal) :
  configured w server port db_name db_user secret_name password →
  psycopg2 w = Some driver →
  connect driver server port db_name db_user password 30 = Ok db →
  sql_command odscode = Ok sql →
  conn_execute db sql None = Ok rows →
  row ∈ rows → (length row < 19)%nat →
  outcome (get_matching_dos_services w odscode) = Err IndexError ∧
  FetchAll ∈ trace (get_matching_dos_services w odscode).
Proof.
  intros Hconf Hdriver Hdb Hsql Hexec Hin Hshort.
  destruct (get_matching_configured w odscode _ _ _ _ _ _ Hconf) as [-> ->].
  unfold global_psycopg2. rewrite Hdriver. cbn [mbind result_bind].
  rewrite Hdb, Hsql. cbn [mbind result_bind]. rewrite Hexec. cbn [mbind result_bind].
  split; [by eapply mapM_init_short|].
  apply elem_of_app. right. cbn [app].
  do 4 (apply elem_of_cons; right). apply elem_of_cons. by left.
Qed.

Lemma get_matching_short_row_witness :
  outcome (get_matching_dos_services truncating_world (PyStr "FA12345")) = Err IndexError ∧
  FetchAll ∈ trace (get_matching_dos_services truncating_world (PyStr "FA12345")).
Proof.
  eapply (get_matching_short_row truncating_world (PyStr "FA12345") _ _ _ _ _ _ _
            truncating_connection _ _ (take 18 pharmacy_row)).
  - repeat split. by exists {[ "SecretString" := "s3cret" ]}.
  - reflexivity.
  - reflexivity.
  - reflexivity.
  - reflexivity.
  - apply elem_of_cons. right. apply elem_of_cons. left. reflexivity.
  - simpl. lia.
Defined.

Lemma string_length_app (s t : string) :
  String.length (s +:+ t) = (String.length s + String.length t)%nat.
Proof.
  induction s as [|c s IH]; [done|].
  change (S (String.length (s +:+ t)) = S (String.length s + String.length t)).
  by rewrite IH.
Qed.

Lemma string_app_inj_r (t : string) : ∀ a b : string, a +:+ t = b +:+ t → a = b.
Proof.
  induction a as [|c a IH]; intros [|d b] H.
  - done.
  - apply (f_equal String.length) in H. rewrite !string_length_app in H. simpl in H. lia.
  - apply (f_equal String.length) in H. rewrite !string_length_app in H. simpl in H. lia.
  - change (String c (a +:+ t) = String d (b +:+ t)) in H.
    injection H as -> H. f_equal. by apply IH.
Qed.

(** X22. The statement tells the prefixes apart: two string identifiers
    give the same statement exactly when their first five characters are
    the same. *)
Theorem sql_command_same_iff (a b : string) :
  sql_command (PyStr a) = sql_command (PyStr b) ↔
  String.substring 0 5 a = String.substring 0 5 b.
Proof.
  rewrite !sql_command_str. split; [|by intros ->].
  intros [= H]. unfold like_statement in H.
  repeat (apply (inj (String.app _)) in H).
  by apply string_app_inj_r in H.
Qed.

(** ** The logging context of [logger.py] *)

Lemma export_logging_variables_Ok
    (context : Obj) (env : gmap string string) (function_name aws_request_id : PyVal) :
  context !! "function_name" = Some function_name →
  context !! "aws_request_id" = Some aws_request_id →
  export_logging_variables context env =
    (<["LOGGING_X_AMZN_TRACE_ID" := default "00000-00000-00000" (env !! "_X_AMZN_TRACE_ID")]>
       (<["LOGGING_REQUEST_ID" := py_str aws_request_id]>
          (<["LOGGING_FUNCTION_NAME" := py_str function_name]> env)),
     Ok ()).
Proof.
  intros Hf Hr. unfold export_logging_variables, getattr, getenv. rewrite Hf, Hr. simpl.
  rewrite !lookup_insert_ne by done.
  destruct (env !! "_X_AMZN_TRACE_ID"); case_bool_decide; simplify_eq; reflexivity.
Qed.

(** X23. What the middleware exports, the filter reads back: after
    [export_logging_variables] a filtered record carries the string forms
    of the context's function name and request id, and as trace id the
    value of [_X_AMZN_TRACE_ID], or 00000-00000-00000 when that variable
    is not set; the filter lets the record through. *)
Theorem logging_context_round_trip
    (context record : Obj) (env : gmap string string) (function_name aws_request_id : PyVal) :
  context !! "function_name" = Some function_name →
  context !! "aws_request_id" = Some aws_request_id →
  ∃ env', export_logging_variables context env = (env', Ok ()) ∧
    (LambdaFilter_filter env' record).2 = true ∧
    (LambdaFilter_filter env' record).1 !! "function_name"
      = Some (PyStr (py_str function_name)) ∧
    (LambdaFilter_filter env' record).1 !! "aws_request_id"
      = Some (PyStr (py_str aws_request_id)) ∧
    (LambdaFilter_filter env' record).1 !! "x_ray_trace_id"
      = Some (PyStr (default "00000-00000-00000" (env !! "_X_AMZN_TRACE_ID"))).
Proof.
  intros Hf Hr. eexists. split; [by apply export_logging_variables_Ok|].
  unfold LambdaFilter_filter, getenv. cbn [fst snd].
  split; [done|].
  repeat split; by simplify_map_eq.
Qed.

Lemma logging_context_round_trip_witness :
  ∃ env', export_logging_variables sample_context sample_environ = (env', Ok ()) ∧
    (LambdaFilter_filter env' ∅).2 = true ∧
    (LambdaFilter_filter env' ∅).1 !! "function_name" = Some (PyStr "event-processor") ∧
    (LambdaFilter_filter env' ∅).1 !! "aws_request_id" = Some (PyStr "req-0001") ∧
    (LambdaFilter_filter env' ∅).1 !! "x_ray_trace_id" = Some (PyStr "00000-00000-00000").
Proof.
  apply (logging_context_round_trip sample_context ∅ sample_environ
           (PyStr "event-processor") (PyStr "req-0001")); reflexivity.
Defined.

Lemma export_logging_variables_frame (context : Obj) (env : gmap string string) (k : string) :
  k ≠ "LOGGING_FUNCTION_NAME" → k ≠ "LOGGING_REQUEST_ID" → k ≠ "LOGGING_X_AMZN_TRACE_ID" →
  (export_logging_variables context env).1 !! k = env !! k.
Proof.
  intros H1 H2 H3. unfold export_logging_variables, getattr, getenv.
  destruct (context !! "function_name"); [|done]. simpl.
  destruct (context !! "aws_request_id"); simpl.
  - rewrite !lookup_insert_ne by done.
    destruct (env !! "_X_AMZN_TRACE_ID"); case_bool_decide; simplify_eq; simpl;
      by rewrite !lookup_insert_ne.
  - by rewrite lookup_insert_ne.
Qed.

(** X24. [export_logging_variables] writes its three variables and no
    other, also when it fails half way; so a lookup made afterwards reads
    the same database settings and runs exactly as it would have
    before. *)
Theorem export_keeps_settings (context : Obj) (w : World) (odscode : PyVal) :
  (∀ k, k ∉ ["LOGGING_FUNCTION_NAME"; "LOGGING_REQUEST_ID"; "LOGGING_X_AMZN_TRACE_ID"] →
     (export_logging_variables context (environ w)).1 !! k = environ w !! k) ∧
  get_matching_dos_services
    {| environ := (export_logging_variables context (environ w)).1;
       get_secret_value := get_secret_value w; psycopg2 := psycopg2 w |} odscode
  = get_matching_dos_services w odscode.
Proof.
  split.
  - intros k Hk. rewrite !not_elem_of_cons in Hk.
    apply export_logging_variables_frame; tauto.
  - unfold get_matching_dos_services, getitem, global_psycopg2. cbn [environ get_secret_value psycopg2].
    by rewrite !export_logging_variables_frame by done.
Qed.

(** X25. Without [LOG_LEVEL] in the environment the middleware raises
    [KeyError] and never calls the handler; by then it has loaded the
    logging configuration and already exported the logging variables. *)
Theorem setup_logger_missing_level
    (lib : Logging) (handler : PyVal → Obj → gmap string string → result PyVal)
    (event : PyVal) (context : Obj) (env : gmap string string)
    (function_name aws_request_id : PyVal) :
  fileConfig lib = Ok () →
  context !! "function_name" = Some function_name →
  context !! "aws_request_id" = Some aws_request_id →
  env !! "LOG_LEVEL" = None →
  ∃ env', setup_logger lib handler event context env =
            (env', [CallFileConfig; CallGetLogger "lambda"], Err (KeyError "LOG_LEVEL")) ∧
    env' !! "LOGGING_FUNCTION_NAME" = Some (py_str function_name) ∧
    env' !! "LOGGING_REQUEST_ID" = Some (py_str aws_request_id).
Proof.
  intros Hconf Hf Hr Hlevel. unfold setup_logger. rewrite Hconf.
  rewrite (export_logging_variables_Ok context env _ _ Hf Hr).
  unfold set_log_level, getitem. rewrite !lookup_insert_ne, Hlevel by done.
  eexists. split; [reflexivity|]. split; by simplify_map_eq.
Qed.

Lemma setup_logger_missing_level_witness :
  ∃ env', setup_logger sample_logging echo_handler PyNone sample_context sample_environ =
            (env', [CallFileConfig; CallGetLogger "lambda"], Err (KeyError "LOG_LEVEL")) ∧
    env' !! "LOGGING_FUNCTION_NAME" = Some (py_str (PyStr "event-processor")) ∧
    env' !! "LOGGING_REQUEST_ID" = Some (py_str (PyStr "req-0001")).
Proof.
  apply (setup_logger_missing_level sample_logging echo_handler PyNone sample_context
           sample_environ (PyStr "event-processor") (PyStr "req-0001")); reflexivity.
Defined.

(** X26. When the configuration loads and the level is accepted, the
    middleware sets the level, adds the filter and then calls the handler
    once, in the environment that holds the exported variables, and
    returns what the handler returns. *)
Theorem setup_logger_calls_handler
    (lib : Logging) (handler : PyVal → Obj → gmap string string → result PyVal)
    (event : PyVal) (context : Obj) (env : gmap string string)
    (function_name aws_request_id : PyVal) (log_level : string) :
  fileConfig lib = Ok () →
  context !! "function_name" = Some function_name →
  context !! "aws_request_id" = Some aws_request_id →
  env !! "LOG_LEVEL" = Some log_level →
  setLevel lib log_level = Ok () →
  ∃ env', export_logging_variables context env = (env', Ok ()) ∧
    setup_logger lib handler event context env =
      (env',
       [ CallFileConfig; CallGetLogger "lambda"; CallSetLevel log_level;
         CallDebug ("Logger set to " +:+ log_level +:+ " mode"); CallAddFilter; CallHandler ],
       handler event context env') ∧
    env' !! "LOGGING_REQUEST_ID" = Some (py_str aws_request_id).
Proof.
  intros Hconf Hf Hr Hlevel Hset. unfold setup_logger. rewrite Hconf.
  rewrite (export_logging_variables_Ok context env _ _ Hf Hr).
  unfold set_log_level, getitem. rewrite !lookup_insert_ne, Hlevel, Hset by done.
  eexists. split; [reflexivity|]. split; [reflexivity|]. by simplify_map_eq.
Qed.

Lemma setup_logger_calls_handler_witness :
  ∃ env', export_logging_variables sample_context (<["LOG_LEVEL" := "DEBUG"]> sample_environ)
            = (env', Ok ()) ∧
    setup_logger sample_logging echo_handler PyNone sample_context
        (<["LOG_LEVEL" := "DEBUG"]> sample_environ) =
      (env',
       [ CallFileConfig; CallGetLogger "lambda"; CallSetLevel "DEBUG";
         CallDebug ("Logger set to " +:+ "DEBUG" +:+ " mode"); CallAddFilter; CallHandler ],
       echo_handler PyNone sample_context env') ∧
    env' !! "LOGGING_REQUEST_ID" = Some (py_str (PyStr "req-0001")).
Proof.
  apply (setup_logger_calls_handler sample_logging echo_handler PyNone sample_context
           (<["LOG_LEVEL" := "DEBUG"]> sample_environ)
           (PyStr "event-processor") (PyStr "req-0001") "DEBUG"); reflexivity.
Defined.
